(** * report-uri-mpulse: the report relay of [index.js]

    A shallow embedding of the route [POST /report/:apiKey] and of
    [handleReport], with the JavaScript operations they rely on written
    out: property reads that raise on [undefined] and [null], truthiness,
    [String.prototype.replace] / [indexOf] / [substring] / [trim],
    template-literal string conversion and [Number.prototype.toString(36)].

    Strings are sequences of code units; the Standard Library's [string]
    carries 8-bit units, and every operation below works unit by unit. *)

From Stdlib Require Import ZArith Lia Ascii String List.
From stdpp Require Import base gmap strings list pretty.

Local Open Scope string_scope.
Local Open Scope list_scope.
Local Open Scope Z_scope.

(** ** String built-ins *)

(** [String.prototype.indexOf(pat)]: the least position at which [pat]
    occurs, [-1] when it does not occur. *)
Fixpoint indexOf_from (pat s : string) (i : Z) : Z :=
  if String.prefix pat s then i
  else match s with
       | EmptyString => -1
       | String _ s' => indexOf_from pat s' (i + 1)
       end.

Definition indexOf (s pat : string) : Z := indexOf_from pat s 0.

(** [String.prototype.substring(start, end)]: both ends are clamped to
    [0 .. length] and swapped when out of order. *)
Definition substring (s : string) (start finish : Z) : string :=
  let len := Z.of_nat (String.length s) in
  let a := Z.min (Z.max start 0) len in
  let b := Z.min (Z.max finish 0) len in
  let from := Z.min a b in
  let to := Z.max a b in
  String.substring (Z.to_nat from) (Z.to_nat (to - from)) s.

(** [String.prototype.replace(pat, rep)] with a string pattern: only the
    first occurrence is replaced.  [rep] is taken literally (the program
    only ever passes the empty string). *)
Definition replace (s pat rep : string) : string :=
  let pos := indexOf s pat in
  if pos =? -1 then s
  else substring s 0 pos
       +:+ rep
       +:+ substring s (pos + Z.of_nat (String.length pat))
                       (Z.of_nat (String.length s)).

(** White space and line terminators among the 8-bit code units:
    TAB, LF, VT, FF, CR, SPACE and NBSP.  The other white space of
    JavaScript (U+1680, U+2000 to U+200A, U+2028, U+2029, U+202F, U+205F,
    U+3000, U+FEFF) lies above the units a [string] holds here. *)
Definition isWhiteSpace (c : ascii) : bool :=
  let n := nat_of_ascii c in
  ((9 <=? n) && (n <=? 13) || (n =? 32) || (n =? 160))%nat.

Fixpoint trimStart (s : string) : string :=
  match s with
  | EmptyString => EmptyString
  | String c s' => if isWhiteSpace c then trimStart s' else s
  end.

Fixpoint trimEnd (s : string) : string :=
  match s with
  | EmptyString => EmptyString
  | String c s' =>
      match trimEnd s' with
      | EmptyString => if isWhiteSpace c then EmptyString else String c EmptyString
      | rest => String c rest
      end
  end.

(** [String.prototype.trim()]. *)
Definition trim (s : string) : string := trimEnd (trimStart s).

(** ** [Number.prototype.toString(36)] on integers *)

Definition digit36 (k : Z) : ascii :=
  if k <? 10 then ascii_of_nat (Z.to_nat (48 + k))
  else ascii_of_nat (Z.to_nat (87 + k)).

(** The digits of [n >= 0], most significant first; [fuel] bounds the
    number of digits. *)
Fixpoint digits36 (fuel : nat) (n : Z) (acc : string) : string :=
  match fuel with
  | O => acc
  | S fuel' =>
      let acc' := String (digit36 (n mod 36)) acc in
      if n <? 36 then acc' else digits36 fuel' (n / 36) acc'
  end.

Definition toString36 (n : Z) : string :=
  let a := Z.abs n in
  let ds := digits36 (S (Z.to_nat (Z.log2 a))) a EmptyString in
  if n <? 0 then String "-" ds else ds.

(** Reading a base-36 numeral back: used to state what [toString36]
    produces. *)
Definition digit36_value (c : ascii) : option Z :=
  let n := Z.of_nat (nat_of_ascii c) in
  if (48 <=? n) && (n <=? 57) then Some (n - 48)
  else if (97 <=? n) && (n <=? 122) then Some (n - 87)
  else None.

Fixpoint numeral36 (s : string) (acc : Z) : option Z :=
  match s with
  | EmptyString => Some acc
  | String c s' =>
      match digit36_value c with
      | Some k => numeral36 s' (36 * acc + k)
      | None => None
      end
  end.

Definition parse36 (s : string) : option Z :=
  match s with
  | EmptyString => None
  | String c s' =>
      if Ascii.eqb c "-"
      then match s' with
           | EmptyString => None
           | _ => Z.opp <$> numeral36 s' 0
           end
      else numeral36 s 0
  end.

(** ** Occurrences of a pattern, to state what the string built-ins do *)

(** [pat] occurs in [s] at position [i]. *)
Definition occurs_at (pat s : string) (i : nat) : Prop :=
  ∃ a b, s = a +:+ pat +:+ b ∧ String.length a = i.

Definition occurs (pat s : string) : Prop := ∃ i, occurs_at pat s i.

(** [r] is [s] without its first occurrence of [pat], or [s] itself when
    [pat] does not occur. *)
Definition removed_first (pat s r : string) : Prop :=
  (¬ occurs pat s ∧ r = s) ∨
  (∃ a b, s = a +:+ pat +:+ b ∧ r = a +:+ b ∧
          ∀ i, occurs_at pat s i → (String.length a ≤ i)%nat).

(** [r] is the part of [s] before its first occurrence of [sep], or [s]
    itself when [sep] does not occur. *)
Definition cut_before (sep s r : string) : Prop :=
  (¬ occurs sep s ∧ r = s) ∨
  (∃ b, s = r +:+ sep +:+ b ∧
        ∀ i, occurs_at sep s i → (String.length r ≤ i)%nat).

(** ** Values, outcomes and the world *)

(** The compile-time switch of [index.js]. *)
Definition INCLUDE_FULL_REPORT : bool := false.

(** The names every plain object inherits from [Object.prototype]: a
    property read [o[k]] with [k] among them succeeds even when [o] has no
    such key of its own, and yields a function (or, for [__proto__], the
    prototype object). *)
Definition Object_prototype : list string :=
  [ "constructor"; "hasOwnProperty"; "isPrototypeOf"; "propertyIsEnumerable";
    "toLocaleString"; "toString"; "valueOf"; "__proto__";
    "__defineGetter__"; "__defineSetter__"; "__lookupGetter__";
    "__lookupSetter__" ].

(** The result of the property read [o[k]] on a plain object used as a
    table. *)
Inductive member (A : Type) : Type :=
| Own (a : A)
| Inherited (name : string)
| Missing.
Arguments Own {A} a.
Arguments Inherited {A} name.
Arguments Missing {A}.

Definition read_member {A : Type} (o : gmap string A) (k : string) : member A :=
  match o !! k with
  | Some a => Own a
  | None => if bool_decide (k ∈ Object_prototype) then Inherited k else Missing
  end.

Inductive exn : Type := TypeError.

Inductive outcome (A : Type) : Type :=
| Ret (a : A)
| Throw (e : exn).
Arguments Ret {A} a.
Arguments Throw {A} e.

Inductive reply : Type :=
| ReplyError (message : string)          (* reply.send(new Error(message)) *)
| ReplySuccess (handled : nat).          (* reply.send({success: true, handled}) *)

Section Relay.

#[local] Set Warnings "-register-all".

(** JSON numbers are IEEE doubles; the program only converts them to
    strings and tests their truthiness, so both are taken from the host. *)
Variable number : Type.
Variable Number_toString : number -> string.
Variable Number_ToBoolean : number -> bool.

(** A value produced by [JSON.parse] (or [undefined], for an absent
    property).  An object is the list of its own properties; a read takes
    the first binding of the key. *)
Inductive value : Type :=
| VUndefined
| VNull
| VBool (b : bool)
| VNum (x : number)
| VStr (s : string)
| VArr (items : list value)
| VObj (fields : list (string * value)).

(** [JSON.stringify] and the [jsurl] encoder are libraries outside
    [index.js]; the clock gives the value of [+(new Date())] at its n-th
    reading; [appLookup] holds the own properties of [apps.json]. *)
Variable JSON_stringify : value -> string.
Variable clock : nat -> Z.
Variable appLookup : gmap string value.

(** The optional detail [f] of an error record. *)
Inductive detail : Type :=
| f_absent                                   (* the literal has no [f] key *)
| f_undefined                                (* f: undefined *)
| f_dump (f : string)                        (* f: [{ f }] *)
| f_script (l c f : value) (w : string).     (* f: [{ l, c, f, w }] *)

(** The object literal handed to [JSURL.stringify]. *)
Record NormalizedError : Type := {
  err_v : Z;
  err_t : string;
  err_d : string;
  err_m : string;
  err_f : detail
}.

Variable JSURL_stringify : list NormalizedError -> string.

(** The [data] object given to [mPulse.sendBeacon]; [None] is a key that
    was never assigned. *)
Record Beacon : Type := {
  rt_tstart : Z;
  rt_end : Z;
  http_initiator : string;
  ua : value;
  ip : value;
  u : option value;
  err : option string
}.

(** The object returned by [mPulse.init(apiKey, secret, { ua })]. *)
Record App : Type := {
  app_apiKey : string;
  app_secret : member value;
  app_ua : string
}.

Inductive logline : Type :=
| LogValue (v : value)      (* console.log(v) *)
| LogText (s : string)      (* console.log(s) *)
| LogInfo (s : string).     (* request.log.info(s) *)

Record world : Type := {
  ticks : nat;                 (* readings of the clock so far *)
  console : list logline;      (* oldest first *)
  sent : list Beacon;          (* beacons handed to mPulse, oldest first *)
  apps : gmap string App       (* the module-level [apps] object *)
}.

Record Request : Type := {
  req_body : value;                     (* request.body *)
  req_user_agent : value;               (* request.headers["user-agent"] *)
  req_x_forwarded_for : value;          (* request.headers["x-forwarded-for"] *)
  req_ip : value;                       (* request.ip *)
  req_apiKey : option string            (* request.params.apiKey *)
}.

(** ** Value-level operations *)

Definition ToBoolean (x : value) : bool :=
  match x with
  | VUndefined | VNull => false
  | VBool b => b
  | VNum n => Number_ToBoolean n
  | VStr s => negb (String.eqb s "")
  | VArr _ | VObj _ => true
  end.

Definition member_ToBoolean (x : member value) : bool :=
  match x with
  | Own a => ToBoolean a
  | Inherited _ => true
  | Missing => false
  end.

Fixpoint assoc (k : string) (fields : list (string * value)) : option value :=
  match fields with
  | [] => None
  | (k', a) :: rest => if String.eqb k k' then Some a else assoc k rest
  end.

(** The value of [x[k]] for [x] other than [undefined] and [null].  The
    keys the handler reads are fixed field names of reports, none of which
    is a name of a prototype, an index or [length]: a read on a string,
    number, boolean or array gives [undefined]. *)
Definition prop (x : value) (k : string) : value :=
  match x with
  | VObj fields => default VUndefined (assoc k fields)
  | _ => VUndefined
  end.

(** [x === s] for a string literal [s]. *)
Definition is_str (x : value) (s : string) : bool :=
  match x with
  | VStr s' => String.eqb s' s
  | _ => false
  end.

(** [a || b] on values already computed. *)
Definition or_else (a b : value) : value := if ToBoolean a then a else b.

(** [Array.prototype.indexOf(needle)] for a string [needle]: the search
    uses strict equality. *)
Fixpoint Array_indexOf_from (items : list value) (needle : string) (i : Z) : Z :=
  match items with
  | [] => -1
  | x :: rest => if is_str x needle then i else Array_indexOf_from rest needle (i + 1)
  end.

(** String conversion, as a template literal performs it.  An array is
    joined with commas, [null] and [undefined] elements giving the empty
    string; an object gives ["[object Object]"] unless it has a key
    [toString] of its own, which is then not callable and makes the
    conversion raise. *)
Fixpoint ToString (x : value) : outcome string :=
  match x with
  | VUndefined => Ret "undefined"
  | VNull => Ret "null"
  | VBool true => Ret "true"
  | VBool false => Ret "false"
  | VNum n => Ret (Number_toString n)
  | VStr s => Ret s
  | VArr items =>
      (fix join (l : list value) (first : bool) : outcome string :=
         match l with
         | [] => Ret ""
         | y :: rest =>
             let piece :=
               match y with
               | VUndefined | VNull => Ret ""
               | _ => ToString y
               end in
             match piece, join rest false with
             | Ret a, Ret b => Ret ((if first then "" else ",") +:+ a +:+ b)
             | Throw e, _ => Throw e
             | _, Throw e => Throw e
             end
         end) items true
  | VObj fields =>
      match assoc "toString" fields with
      | Some _ => Throw TypeError
      | None => Ret "[object Object]"
      end
  end.

(** ** The monad of the handler: state and exceptions *)

Definition M (A : Type) : Type := world -> outcome A * world.

#[local] Instance M_ret : MRet M := fun A a w => (Ret a, w).
#[local] Instance M_bind : MBind M := fun A B k c w =>
  match c w with
  | (Ret a, w') => k a w'
  | (Throw e, w') => (Throw e, w')
  end.

Definition throw {A : Type} (e : exn) : M A := fun w => (Throw e, w).

Definition lift {A : Type} (o : outcome A) : M A := fun w => (o, w).

(** [x[k]]: raises on [undefined] and [null]. *)
Definition Get (x : value) (k : string) : M value :=
  match x with
  | VUndefined | VNull => throw TypeError
  | _ => mret (prop x k)
  end.

(** [x.replace(pat, rep)]: only strings have the method. *)
Definition call_replace (x : value) (pat rep : string) : M string :=
  match x with
  | VStr s => mret (replace s pat rep)
  | _ => throw TypeError
  end.

(** [x.indexOf(needle)]: strings and arrays have the method. *)
Definition call_indexOf (x : value) (needle : string) : M Z :=
  match x with
  | VStr s => mret (indexOf s needle)
  | VArr items => mret (Array_indexOf_from items needle 0)
  | _ => throw TypeError
  end.

(** [x.substring(start, finish)]: only strings have the method. *)
Definition call_substring (x : value) (start finish : Z) : M value :=
  match x with
  | VStr s => mret (VStr (substring s start finish))
  | _ => throw TypeError
  end.

Definition console_log (l : logline) : M unit := fun w =>
  (Ret tt, {| ticks := ticks w; console := console w ++ [l];
              sent := sent w; apps := apps w |}).

(** [+(new Date())]. *)
Definition Date_now : M Z := fun w =>
  (Ret (clock (ticks w)),
   {| ticks := S (ticks w); console := console w;
      sent := sent w; apps := apps w |}).

Definition mPulse_sendBeacon (data : Beacon) : M unit := fun w =>
  (Ret tt, {| ticks := ticks w; console := console w;
              sent := sent w ++ [data]; apps := apps w |}).

Definition get_apps : M (gmap string App) := fun w => (Ret (apps w), w).

Definition set_app (k : string) (a : App) : M unit := fun w =>
  (Ret tt, {| ticks := ticks w; console := console w;
              sent := sent w; apps := <[k := a]> (apps w) |}).

Definition set_u (data : Beacon) (x : value) : Beacon :=
  {| rt_tstart := rt_tstart data; rt_end := rt_end data;
     http_initiator := http_initiator data; ua := ua data; ip := ip data;
     u := Some x; err := err data |}.

Definition set_err (data : Beacon) (e : string) : Beacon :=
  {| rt_tstart := rt_tstart data; rt_end := rt_end data;
     http_initiator := http_initiator data; ua := ua data; ip := ip data;
     u := u data; err := Some e |}.

(** ** [handleReport] *)

(** The error record every branch builds: [v: 0], the title, the date in
    base 36, the message and the detail. *)
Definition record (title : string) (when : Z) (message : string) (full : detail)
  : NormalizedError :=
  {| err_v := 0; err_t := title; err_d := toString36 when;
     err_m := message; err_f := full |}.

Definition handleReport (body ua ip : value) : M unit :=
  console_log (LogValue body) ;;
  when ← Date_now ;
  let data :=
    {| rt_tstart := when; rt_end := when; http_initiator := "error";
       ua := ua; ip := ip; u := None; err := None |} in
  data ←
    (type ← Get body "type" ;
     marker ← (if is_str type "csp" then mret true
               else x ← Get body "csp-report" ; mret (ToBoolean x)) ;
     if marker : bool then
       (* Content Security Policy (CSP) *)
       csp ← (a ← Get body "csp-report" ;
              if ToBoolean a then mret a else Get body "body") ;
       document_uri ← Get csp "document-uri" ;
       let data := set_u data document_uri in
       blocked ← Get csp "blocked-uri" ;
       stripped ← call_replace blocked "http://" "" ;
       let blockedUri := replace stripped "https://" "" in
       let blockedUri :=
         if negb (indexOf blockedUri "/" =? -1)
         then substring blockedUri 0 (indexOf blockedUri "/")
         else blockedUri in
       directive ← (e ← Get csp "effective-directive" ;
                    if ToBoolean e then mret e else Get csp "violated-directive") ;
       at_space ← call_indexOf directive " " ;
       directive ← (if negb (at_space =? -1)
                    then i ← call_indexOf directive " " ;
                         call_substring directive 0 i
                    else mret directive) ;
       shown ← lift (ToString directive) ;
       let full :=
         if INCLUDE_FULL_REPORT then f_dump (JSON_stringify csp) else f_undefined in
       mret (set_err data (JSURL_stringify
         [record "Content Security Policy" when (shown +:+ ": " +:+ blockedUri) full]))
     else if is_str type "network-error" then
       (* Network Error Logging (NEL) *)
       nel ← Get body "body" ;
       url ← Get body "url" ;
       let data := set_u data url in
       s1 ← (x ← Get nel "type" ; lift (ToString x)) ;
       s2 ← (x ← Get nel "protocol" ; lift (ToString x)) ;
       s3 ← (x ← Get nel "method" ; lift (ToString x)) ;
       s4 ← (x ← Get nel "status_code" ; lift (ToString x)) ;
       let full :=
         if INCLUDE_FULL_REPORT then f_dump (JSON_stringify nel) else f_undefined in
       mret (set_err data (JSURL_stringify
         [record "Network Error Logging" when
            (s1 +:+ " " +:+ s2 +:+ " " +:+ s3 +:+ " " +:+ s4) full]))
     else if is_str type "deprecation" then
       (* Reporting API: Deprecation *)
       deprecation ← Get body "body" ;
       url ← Get body "url" ;
       let data := set_u data url in
       s1 ← (x ← Get deprecation "id" ; lift (ToString x)) ;
       s2 ← (removal ← Get deprecation "anticipatedRemoval" ;
             if ToBoolean removal
             then x ← Get deprecation "anticipatedRemoval" ; lift (ToString x)
             else mret "") ;
       full ← (if INCLUDE_FULL_REPORT
               then l ← Get deprecation "lineNumber" ;
                    c ← Get deprecation "columnNumber" ;
                    f ← Get deprecation "sourceFile" ;
                    mret (f_script l c f (JSON_stringify deprecation))
               else mret f_undefined) ;
       mret (set_err data (JSURL_stringify
         [record "Deprecation" when (trim (s1 +:+ " " +:+ s2)) full]))
     else if is_str type "intervention" then
       (* Reporting API: Intervention *)
       intervention ← Get body "body" ;
       url ← Get body "url" ;
       let data := set_u data url in
       s1 ← (x ← Get intervention "id" ; lift (ToString x)) ;
       full ← (if INCLUDE_FULL_REPORT
               then l ← Get intervention "lineNumber" ;
                    c ← Get intervention "columnNumber" ;
                    f ← Get intervention "sourceFile" ;
                    mret (f_script l c f (JSON_stringify intervention))
               else mret f_undefined) ;
       mret (set_err data (JSURL_stringify [record "Intervention" when s1 full]))
     else if is_str type "crash" then
       (* Reporting API: Crash *)
       crash ← Get body "body" ;
       url ← Get body "url" ;
       let data := set_u data url in
       s1 ← (x ← Get crash "reason" ; lift (ToString x)) ;
       let full :=
         if INCLUDE_FULL_REPORT then f_dump (JSON_stringify crash) else f_undefined in
       mret (set_err data (JSURL_stringify [record "Crash" when s1 full]))
     else if is_str type "feature-policy-violation" then
       (* Feature Policy Violation *)
       violation ← Get body "body" ;
       url ← Get body "url" ;
       let data := set_u data url in
       s1 ← (x ← Get violation "policyId" ; lift (ToString x)) ;
       let full :=
         if INCLUDE_FULL_REPORT then f_dump (JSON_stringify violation) else f_undefined in
       mret (set_err data (JSURL_stringify
         [record "Feature Policy Violation" when s1 full]))
     else
       xss ← Get body "xss-report" ;
       if ToBoolean xss then
         (* XSS *)
         request_url ← Get xss "request-url" ;
         stripped ← call_replace request_url "http://" "" ;
         let requestUrl := replace stripped "https://" "" in
         let full :=
           if INCLUDE_FULL_REPORT then f_dump (JSON_stringify xss) else f_undefined in
         mret (set_err data (JSURL_stringify [record "XSS Report" when requestUrl full]))
       else
         ct ← Get body "expect-ct-report" ;
         if ToBoolean ct then
           (* Expect-CT *)
           s1 ← (x ← Get ct "hostname" ; lift (ToString x)) ;
           mret (set_err data (JSURL_stringify [record "Expect-CT" when s1 f_absent]))
         else
           (* Unknown - log more info *)
           console_log (LogText "Unknown Request") ;;
           console_log (LogText (JSON_stringify body)) ;;
           mret data) ;
  (* Send to mPulse *)
  mPulse_sendBeacon data.

(** ** The route [POST /report/:apiKey] *)

(** The [for] loop over [body]: [reportsHandled] is incremented after each
    call that returns. *)
Fixpoint handleReports (items : list value) (ua ip : value) (reportsHandled : nat)
  : M nat :=
  match items with
  | [] => mret reportsHandled
  | report :: rest =>
      handleReport report ua ip ;;
      handleReports rest ua ip (S reportsHandled)
  end.

Definition post_report (request : Request) : M reply :=
  let body := req_body request in
  let ua := req_user_agent request in
  let ip := or_else (req_x_forwarded_for request) (req_ip request) in
  if negb (ToBoolean body) then mret (ReplyError "No Request body")
  else
    match req_apiKey request with
    | None | Some "" => mret (ReplyError "No API Key specified")
    | Some apiKey =>
        let restApiSecretKey := read_member appLookup apiKey in
        if negb (member_ToBoolean restApiSecretKey)
        then mret (ReplyError "Unknown API key")
        else
          (* App initialization *)
          known ← get_apps ;
          (match read_member known apiKey with
           | Missing =>
               console_log (LogInfo ("Initializing " +:+ apiKey)) ;;
               set_app apiKey
                 {| app_apiKey := apiKey;
                    app_secret := restApiSecretKey;
                    app_ua := "report-uri-mpulse" |}
           | _ => mret tt
           end) ;;
          reportsHandled ←
            (* [body && Array.isArray(body)]: [body] is truthy here *)
            (match body with
             | VArr items => handleReports items ua ip 0
             | _ => handleReport body ua ip ;; mret 1%nat
             end) ;
          mret (ReplySuccess reportsHandled)
    end.

(** ** Kinds of reports *)

Inductive kind : Type :=
| CSP | NEL | Deprecation | Intervention | Crash | FeaturePolicy | XSS | ExpectCT | Unknown.

(** The kind a [type] discriminator names. *)
Definition kind_of_type (type : value) : option kind :=
  if is_str type "csp" then Some CSP
  else if is_str type "network-error" then Some NEL
  else if is_str type "deprecation" then Some Deprecation
  else if is_str type "intervention" then Some Intervention
  else if is_str type "crash" then Some Crash
  else if is_str type "feature-policy-violation" then Some FeaturePolicy
  else None.

(** Classification: the [csp-report] marker first, then the [type]
    discriminator, then the [xss-report] and [expect-ct-report] markers. *)
Definition classify (body : value) : kind :=
  if ToBoolean (prop body "csp-report") then CSP
  else match kind_of_type (prop body "type") with
       | Some k => k
       | None =>
           if ToBoolean (prop body "xss-report") then XSS
           else if ToBoolean (prop body "expect-ct-report") then ExpectCT
           else Unknown
       end.

(** The title of each kind ([Unknown] builds no record, hence no title). *)
Definition title (k : kind) : string :=
  match k with
  | CSP => "Content Security Policy"
  | NEL => "Network Error Logging"
  | Deprecation => "Deprecation"
  | Intervention => "Intervention"
  | Crash => "Crash"
  | FeaturePolicy => "Feature Policy Violation"
  | XSS => "XSS Report"
  | ExpectCT => "Expect-CT"
  | Unknown => ""
  end.

(** [undefined] and [null]: the values a property read raises on. *)
Definition nullish (x : value) : bool :=
  match x with VUndefined | VNull => true | _ => false end.

(** ** Outcomes of a computation

    [wp c w Q E]: run from [w], [c] either returns [a] in a world [w']
    with [Q a w'], or raises [e] in a world [w'] with [E e w']. *)
Definition wp {A : Type} (c : M A) (w : world)
    (Q : A → world → Prop) (E : exn → world → Prop) : Prop :=
  match c w with
  | (Ret a, w') => Q a w'
  | (Throw e, w') => E e w'
  end.

(** The detail each kind attaches while [INCLUDE_FULL_REPORT] is off. *)
Definition shape (k : kind) : detail :=
  match k with ExpectCT => f_absent | _ => f_undefined end.

(** The fixed set of titles. *)
Definition titles : list string :=
  [ "Content Security Policy"; "Network Error Logging"; "Deprecation";
    "Intervention"; "Crash"; "Feature Policy Violation"; "XSS Report";
    "Expect-CT" ].

(** A request that passes the three checks of the route. *)
Definition accepted (request : Request) (apiKey : string) : Prop :=
  ToBoolean (req_body request) = true ∧
  req_apiKey request = Some apiKey ∧ apiKey ≠ "" ∧
  member_ToBoolean (read_member appLookup apiKey) = true.

(** [handleReport] returns normally on [body], whatever the world. *)
Definition returns (body : value) : Prop :=
  ∀ ua ip w, (handleReport body ua ip w).1 = Ret tt.

(** [handleReport] raises on [body], whatever the world. *)
Definition raises (body : value) : Prop :=
  ∀ ua ip w, (handleReport body ua ip w).1 = Throw TypeError.

(** A CSP report with its required sub-fields: classified through
    [type === "csp"] or the [csp-report] marker, its payload [csp] holding
    a string [blocked-uri] and a string directive. *)
Definition csp_report (body csp : value) (blocked directive : string) : Prop :=
  (is_str (prop body "type") "csp" = true ∨
   ToBoolean (prop body "csp-report") = true) ∧
  csp = or_else (prop body "csp-report") (prop body "body") ∧
  prop csp "blocked-uri" = VStr blocked ∧
  or_else (prop csp "effective-directive") (prop csp "violated-directive")
    = VStr directive.

(** An XSS report: no other kind applies, and the marker holds a string
    [request-url]. *)
Definition xss_report (body : value) (url : string) : Prop :=
  classify body = XSS ∧
  prop (prop body "xss-report") "request-url" = VStr url.

(** The beacon sent for [item] says what [item] was classified as. *)
Definition beacon_of (item : value) (data : Beacon) : Prop :=
  http_initiator data = "error" ∧ rt_tstart data = rt_end data ∧
  match classify item with
  | Unknown => u data = None ∧ err data = None
  | k => ∃ m when, err data = Some (JSURL_stringify
           [record (title k) when m (shape k)])
  end.

(** A CSP report without what the handler dereferences: no payload at
    all, or a payload whose [blocked-uri] is not a string. *)
Definition csp_missing_field (body : value) : Prop :=
  (is_str (prop body "type") "csp" = true ∨
   ToBoolean (prop body "csp-report") = true) ∧
  let csp := or_else (prop body "csp-report") (prop body "body") in
  nullish csp = true ∨ ∀ s, prop csp "blocked-uri" ≠ VStr s.

(** ** Shapes of reports, and what a beacon carries for them *)

(** A Reporting API report: no [csp-report] marker, a [type] and a payload
    under [body] that is neither [null] nor [undefined]. *)
Definition reporting_api (body : value) (type : string) (payload : value) : Prop :=
  ToBoolean (prop body "csp-report") = false ∧
  prop body "type" = VStr type ∧
  prop body "body" = payload ∧
  nullish payload = false.

(** The kinds whose message is one field of the payload, with the field. *)
Definition single_field : list (string * (string * kind)) :=
  [ ("intervention", ("id", Intervention));
    ("crash", ("reason", Crash));
    ("feature-policy-violation", ("policyId", FeaturePolicy)) ].

(** Where the [u] of a beacon comes from, kind by kind. *)
Definition u_of (body : value) : option value :=
  match classify body with
  | CSP =>
      Some (prop (or_else (prop body "csp-report") (prop body "body")) "document-uri")
  | NEL | Deprecation | Intervention | Crash | FeaturePolicy =>
      Some (prop body "url")
  | XSS | ExpectCT | Unknown => None
  end.

(** What the handler logs after the report itself. *)
Definition diagnostics (body : value) : list logline :=
  match classify body with
  | Unknown => [LogText "Unknown Request"; LogText (JSON_stringify body)]
  | _ => []
  end.

(** The session [mPulse.init] makes for a key of [apps.json]. *)
Definition session (apiKey : string) (secret : value) : App :=
  {| app_apiKey := apiKey; app_secret := Own secret; app_ua := "report-uri-mpulse" |}.

(** Every code unit of [s] satisfies [p]. *)
Fixpoint all_units (p : ascii → bool) (s : string) : bool :=
  match s with
  | EmptyString => true
  | String c s' => p c && all_units p s'
  end.

(** The digits of a date token: [0]-[9] and [a]-[z]. *)
Definition digit_unit (c : ascii) : bool :=
  match digit36_value c with
  | Some _ => true
  | None => false
  end.

(** The world once the route has looked up (and, the first time, made)
    the session of [apiKey]. *)
Definition after_init (w : world) (apiKey : string) : world :=
  match read_member (apps w) apiKey with
  | Missing =>
      {| ticks := ticks w;
         console := console w ++ [LogInfo ("Initializing " +:+ apiKey)];
         sent := sent w;
         apps := <[apiKey :=
                     {| app_apiKey := apiKey;
                        app_secret := read_member appLookup apiKey;
                        app_ua := "report-uri-mpulse" |}]> (apps w) |}
  | _ => w
  end.

(** Values a template literal can render: every object met directly or
    through arrays is free of a key [toString] of its own. *)
Fixpoint printable (x : value) : bool :=
  match x with
  | VArr items => forallb printable items
  | VObj fields =>
      match assoc "toString" fields with
      | Some _ => false
      | None => true
      end
  | _ => true
  end.

(** A host, with or without a port: no ["/"] in it, and no [":"] at its
    end. *)
Fixpoint hostlike (h : string) : bool :=
  match h with
  | EmptyString => true
  | String c EmptyString => negb (Ascii.eqb c "/") && negb (Ascii.eqb c ":")
  | String c h' => negb (Ascii.eqb c "/") && hostlike h'
  end.


(** * Properties *)

(** ** The string built-ins *)

Lemma prefix_spec p s : String.prefix p s = true ↔ ∃ r, s = p +:+ r.
Proof.
  revert s. induction p as [|c p IH]; intros s.
  - split; [intros _; by exists s | by destruct s].
  - destruct s as [|c' s'].
    + split; [discriminate | intros [r Hr]; discriminate].
    + cbn. destruct (ascii_dec c c') as [->|Hne].
      * split.
        -- intros H. apply IH in H as [r ->]. by exists r.
        -- intros [r Hr]. apply IH. exists r. by inversion Hr.
      * split; [discriminate | intros [r Hr]; inversion Hr; congruence].
Qed.

Lemma occurs_at_0 pat s : occurs_at pat s 0 ↔ String.prefix pat s = true.
Proof.
  rewrite prefix_spec. split.
  - intros (a & b & -> & Ha). destruct a; [|discriminate]. eauto.
  - intros [r ->]. exists "", r. done.
Qed.

Lemma occurs_at_S pat c s i : occurs_at pat (String c s) (S i) ↔ occurs_at pat s i.
Proof.
  split.
  - intros (a & b & Hs & Ha). destruct a as [|c' a]; [discriminate|].
    cbn in *. inversion Hs; subst. exists a, b. split; [done | lia].
  - intros (a & b & -> & Ha). exists (String c a), b. cbn. split; [done | lia].
Qed.

Lemma indexOf_from_spec pat s i :
  (indexOf_from pat s i = -1 ∧ ¬ occurs pat s) ∨
  (∃ a b, s = a +:+ pat +:+ b ∧ indexOf_from pat s i = i + Z.of_nat (String.length a) ∧
          ∀ j, occurs_at pat s j → (String.length a ≤ j)%nat).
Proof.
  revert i. induction s as [|c s IH]; intros i; cbn [indexOf_from].
  - destruct (String.prefix pat "") eqn:Hp.
    + right. apply prefix_spec in Hp as [r Hr]. exists "", r. cbn.
      split; [done|]. split; [lia | intros; lia].
    + left. split; [done|]. intros [j Hj]. destruct j.
      * apply occurs_at_0 in Hj. congruence.
      * destruct Hj as (a & b & Hs & Ha). destruct a; discriminate.
  - destruct (String.prefix pat (String c s)) eqn:Hp.
    + right. apply prefix_spec in Hp as [r Hr]. exists "", r. cbn.
      split; [done|]. split; [lia | intros; lia].
    + destruct (IH (i + 1)) as [[Hi Hno] | (a & b & Hs & Hi & Hmin)].
      * left. split; [done|]. intros [j Hj]. destruct j.
        -- apply occurs_at_0 in Hj. congruence.
        -- apply occurs_at_S in Hj. apply Hno. by exists j.
      * right. exists (String c a), b. cbn. split; [by rewrite Hs|].
        split; [lia|]. intros j Hj. destruct j.
        -- apply occurs_at_0 in Hj. congruence.
        -- apply occurs_at_S in Hj. apply Hmin in Hj. lia.
Qed.

Lemma substring_take a r : String.substring 0 (String.length a) (a +:+ r) = a.
Proof.
  induction a as [|c a IH].
  - by destruct r.
  - change (String c (String.substring 0 (String.length a) (a +:+ r)) = String c a).
    by rewrite IH.
Qed.

Lemma substring_all r : String.substring 0 (String.length r) r = r.
Proof.
  induction r as [|c r IH]; [done|].
  change (String c (String.substring 0 (String.length r) r) = String c r).
  by rewrite IH.
Qed.

Lemma substring_drop a r :
  String.substring (String.length a) (String.length r) (a +:+ r) = r.
Proof. induction a as [|c a IH]; [apply substring_all | exact IH]. Qed.

Lemma length_app a b : String.length (a +:+ b) = (String.length a + String.length b)%nat.
Proof.
  induction a as [|x a IH]; [done|].
  change (S (String.length (a +:+ b)) = S (String.length a + String.length b)).
  by rewrite IH.
Qed.
Lemma app_assoc' a b c : (a +:+ b) +:+ c = a +:+ (b +:+ c).
Proof.
  induction a as [|x a IH]; [done|].
  change (String x ((a +:+ b) +:+ c) = String x (a +:+ b +:+ c)).
  by rewrite IH.
Qed.

Lemma substring_prefix a r : substring (a +:+ r) 0 (Z.of_nat (String.length a)) = a.
Proof.
  unfold substring. rewrite length_app.
  replace (Z.to_nat _) with 0%nat by lia.
  replace (Z.to_nat _) with (String.length a) by lia.
  apply substring_take.
Qed.

Lemma substring_suffix a r :
  substring (a +:+ r) (Z.of_nat (String.length a)) (Z.of_nat (String.length (a +:+ r))) = r.
Proof.
  unfold substring. rewrite length_app.
  replace (Z.to_nat (Z.min _ _)) with (String.length a) by lia.
  replace (Z.to_nat _) with (String.length r) by lia.
  apply substring_drop.
Qed.

Lemma replace_spec s pat : removed_first pat s (replace s pat "").
Proof.
  unfold replace, indexOf.
  destruct (indexOf_from_spec pat s 0) as [[Hi Hno] | (a & b & Hs & Hi & Hmin)].
  - left. by rewrite Hi.
  - right. exists a, b. split; [done|]. split; [|done].
    rewrite Hi. destruct (_ =? -1) eqn:E; [lia|].
    rewrite Z.add_0_l. subst s.
    rewrite substring_prefix.
    replace (Z.of_nat (String.length a) + Z.of_nat (String.length pat))
      with (Z.of_nat (String.length (a +:+ pat))) by (rewrite length_app; lia).
    rewrite <- (app_assoc' a pat b). by rewrite substring_suffix.
Qed.

Lemma cut_spec s sep :
  cut_before sep s
    (if negb (indexOf s sep =? -1) then substring s 0 (indexOf s sep) else s).
Proof.
  unfold indexOf.
  destruct (indexOf_from_spec sep s 0) as [[Hi Hno] | (a & b & Hs & Hi & Hmin)].
  - left. by rewrite Hi.
  - right. rewrite Hi. destruct (_ =? -1) eqn:E; [lia|].
    rewrite Z.add_0_l. subst s. cbn [negb]. rewrite substring_prefix.
    by exists b.
Qed.

(** ** Base 36 *)

Lemma digit36_value_digit36 r : 0 <= r < 36 → digit36_value (digit36 r) = Some r.
Proof.
  intros Hr. rewrite <- (Z2Nat.id r) by lia.
  assert (Hn : (Z.to_nat r < 36)%nat) by lia.
  revert Hn. generalize (Z.to_nat r). clear. intros n Hn.
  do 36 (destruct n as [|n]; [reflexivity|]). lia.
Qed.

Lemma numeral36_app a b k :
  numeral36 (a +:+ b) k =
  match numeral36 a k with Some k' => numeral36 b k' | None => None end.
Proof.
  revert k. induction a as [|c a IH]; intros k; [done|].
  change (String c a +:+ b) with (String c (a +:+ b)).
  cbn [numeral36]. destruct (digit36_value c); [apply IH | done].
Qed.

Lemma digits36_spec fuel n acc :
  0 <= n < 36 ^ Z.of_nat (S fuel) →
  ∃ ds, digits36 (S fuel) n acc = ds +:+ acc ∧ ds ≠ "" ∧
        ∀ k, numeral36 ds k = Some (k * 36 ^ Z.of_nat (String.length ds) + n).
Proof.
  revert n acc. induction fuel as [|fuel IH]; intros n acc Hn.
  - assert (n < 36) by (change (36 ^ Z.of_nat 1) with 36 in Hn; lia).
    exists (String (digit36 n) ""). cbn [digits36].
    destruct (n <? 36) eqn:E; [|lia]. rewrite Z.mod_small by lia.
    split; [done|]. split; [done|]. intros k. cbn [numeral36].
    rewrite digit36_value_digit36 by lia. f_equal.
    change (Z.of_nat (String.length (String (digit36 n) ""))) with 1. lia.
  - change (digits36 (S (S fuel)) n acc) with
      (if n <? 36 then String (digit36 (n mod 36)) acc
       else digits36 (S fuel) (n / 36) (String (digit36 (n mod 36)) acc)).
    destruct (n <? 36) eqn:E.
    + exists (String (digit36 n) ""). rewrite Z.mod_small by lia.
      split; [done|]. split; [done|]. intros k. cbn [numeral36].
      rewrite digit36_value_digit36 by lia. f_equal.
      change (Z.of_nat (String.length (String (digit36 n) ""))) with 1. lia.
    + assert (Hq : 0 <= n / 36 < 36 ^ Z.of_nat (S fuel)).
      { split; [apply Z.div_pos; lia|].
        apply Z.div_lt_upper_bound; [lia|].
        replace (Z.of_nat (S (S fuel))) with (Z.succ (Z.of_nat (S fuel))) in Hn by lia.
        rewrite Z.pow_succ_r in Hn by lia. lia. }
      destruct (IH (n / 36) (String (digit36 (n mod 36)) acc) Hq)
        as (ds & Hds & Hne & Hval).
      exists (ds +:+ String (digit36 (n mod 36)) "").
      split. { rewrite Hds. by rewrite app_assoc'. }
      split. { destruct ds; [done | discriminate]. }
      intros k. rewrite numeral36_app, Hval. cbn [numeral36].
      rewrite digit36_value_digit36 by (apply Z.mod_pos_bound; lia).
      f_equal. rewrite length_app.
      change (String.length (String (digit36 (n mod 36)) "")) with 1%nat.
      replace (Z.of_nat (String.length ds + 1)) with (Z.succ (Z.of_nat (String.length ds))) by lia.
      rewrite Z.pow_succ_r by lia.
      pose proof (Z.div_mod n 36). lia.
Qed.

Lemma log2_bound a : 0 <= a → a < 36 ^ Z.of_nat (S (Z.to_nat (Z.log2 a))).
Proof.
  intros Ha.
  replace (Z.of_nat (S (Z.to_nat (Z.log2 a)))) with (Z.succ (Z.log2 a))
    by (pose proof (Z.log2_nonneg a); lia).
  destruct (Z.eq_dec a 0) as [->|Hne]; [done|].
  pose proof (Z.log2_spec a ltac:(lia)) as [_ Hlt].
  assert (2 ^ Z.succ (Z.log2 a) <= 36 ^ Z.succ (Z.log2 a)).
  { apply Z.pow_le_mono_l. lia. }
  lia.
Qed.

Lemma parse36_toString36 n : parse36 (toString36 n) = Some n.
Proof.
  unfold toString36.
  destruct (digits36_spec (Z.to_nat (Z.log2 (Z.abs n))) (Z.abs n) "")
    as (ds & Hds & Hne & Hval).
  { split; [lia | apply log2_bound; lia]. }
  cbv zeta. rewrite Hds.
  assert (Hds' : ds +:+ "" = ds).
  { clear. induction ds as [|c ds IH]; [done|].
    change (String c (ds +:+ "") = String c ds). by rewrite IH. }
  rewrite Hds'. specialize (Hval 0). rewrite Z.mul_0_l, Z.add_0_l in Hval.
  destruct (n <? 0) eqn:E.
  - cbn [parse36]. change (Ascii.eqb "-" "-") with true. cbv iota.
    destruct ds as [|c ds]; [done|]. rewrite Hval. cbn. f_equal. lia.
  - destruct ds as [|c ds]; [done|]. cbn [parse36].
    destruct (Ascii.eqb c "-") eqn:Ec.
    + apply Ascii.eqb_eq in Ec as ->. discriminate Hval.
    + rewrite Hval. f_equal. lia.
Qed.

(** ** Rules for [wp] *)

Lemma wp_bind {A B : Type} (c : M A) (k : A → M B) w Q E :
  wp c w (λ a w', wp (k a) w' Q E) E → wp (c ≫= k) w Q E.
Proof.
  unfold wp, mbind, M_bind. by destruct (c w) as [[a|e] w'].
Qed.

Lemma wp_ret {A : Type} (a : A) w (Q : A → world → Prop) E : Q a w → wp (mret a) w Q E.
Proof. done. Qed.

Lemma wp_lift {A : Type} (o : outcome A) w (Q : A → world → Prop) E :
  match o with Ret a => Q a w | Throw e => E e w end → wp (lift o) w Q E.
Proof. by destruct o. Qed.

Lemma wp_Get x k w Q E :
  (if nullish x then E TypeError w else Q (prop x k) w) → wp (Get x k) w Q E.
Proof. by destruct x. Qed.

Lemma wp_call_replace x pat rep w Q E :
  match x with VStr s => Q (replace s pat rep) w | _ => E TypeError w end →
  wp (call_replace x pat rep) w Q E.
Proof. by destruct x. Qed.

Lemma wp_call_indexOf x needle w Q E :
  match x with
  | VStr s => Q (indexOf s needle) w
  | VArr items => Q (Array_indexOf_from items needle 0) w
  | _ => E TypeError w
  end → wp (call_indexOf x needle) w Q E.
Proof. by destruct x. Qed.

Lemma wp_call_substring x a b w Q E :
  match x with VStr s => Q (VStr (substring s a b)) w | _ => E TypeError w end →
  wp (call_substring x a b) w Q E.
Proof. by destruct x. Qed.

Lemma wp_console_log l w (Q : unit → world → Prop) E :
  Q tt {| ticks := ticks w; console := console w ++ [l];
          sent := sent w; apps := apps w |} → wp (console_log l) w Q E.
Proof. done. Qed.

Lemma wp_Date_now w (Q : Z → world → Prop) E :
  Q (clock (ticks w)) {| ticks := S (ticks w); console := console w;
                         sent := sent w; apps := apps w |} → wp Date_now w Q E.
Proof. done. Qed.

Lemma wp_sendBeacon data w (Q : unit → world → Prop) E :
  Q tt {| ticks := ticks w; console := console w;
          sent := sent w ++ [data]; apps := apps w |} → wp (mPulse_sendBeacon data) w Q E.
Proof. done. Qed.

(** Symbolic execution: a condition already decided by a hypothesis is
    rewritten, any other is split on. *)
Ltac case_cond b :=
  match goal with
  | H : b = _ |- _ => rewrite H
  | _ => destruct b eqn:?
  end.

(** One step through the head of the computation. *)
Ltac wp_step :=
  lazymatch goal with
  | |- wp (_ ≫= _) _ _ _ => apply wp_bind
  | |- wp (mret _) _ _ _ => apply wp_ret
  | |- wp (lift _) _ _ _ => apply wp_lift
  | |- wp (Get _ _) _ _ _ => apply wp_Get
  | |- wp (call_replace _ _ _) _ _ _ => apply wp_call_replace
  | |- wp (call_indexOf _ _) _ _ _ => apply wp_call_indexOf
  | |- wp (call_substring _ _ _) _ _ _ => apply wp_call_substring
  | |- wp (console_log _) _ _ _ => apply wp_console_log
  | |- wp Date_now _ _ _ => apply wp_Date_now
  | |- wp (mPulse_sendBeacon _) _ _ _ => apply wp_sendBeacon
  | |- wp (if ?b then _ else _) _ _ _ => case_cond b
  | |- wp (let x := _ in _) _ _ _ => cbv zeta
  | |- if ?b then _ else _ => case_cond b
  | |- match ?x with _ => _ end => destruct x eqn:?
  end; cbn [ticks console sent apps].

(** [Hc : classify body = k], with [k] computed from the conditions the
    execution has decided. *)
Ltac classify_in body Hc :=
  pose proof (eq_refl (classify body)) as Hc;
  unfold classify at 2, kind_of_type in Hc;
  repeat match goal with
         | H : ?c = true |- _ => rewrite H in Hc
         | H : ?c = false |- _ => rewrite H in Hc
         end;
  cbv beta iota in Hc.

(** [handleReport] in one statement.  When it returns, it has read the
    clock once, logged the report and sent one beacon, whose [err] is the
    record of the report's kind; when it raises, nothing was sent, and the
    report was [null] or of a recognised kind. *)
Lemma handleReport_spec body ua0 ip0 w :
  wp (handleReport body ua0 ip0) w
    (λ _ w', ∃ data logs,
       w' = {| ticks := S (ticks w); console := console w ++ LogValue body :: logs;
               sent := sent w ++ [data]; apps := apps w |} ∧
       nullish body = false ∧
       rt_tstart data = clock (ticks w) ∧ rt_end data = clock (ticks w) ∧
       http_initiator data = "error" ∧ ua data = ua0 ∧ ip data = ip0 ∧
       match classify body with
       | Unknown => u data = None ∧ err data = None
       | k => ∃ m, err data = Some (JSURL_stringify
                [record (title k) (clock (ticks w)) m (shape k)])
       end)
    (λ _ w',
       w' = {| ticks := S (ticks w); console := console w ++ [LogValue body];
               sent := sent w; apps := apps w |} ∧
       (nullish body = true ∨ classify body ≠ Unknown)).
Proof.
  unfold handleReport, INCLUDE_FULL_REPORT.
  repeat wp_step.
  all: let Hc := fresh "Hc" in classify_in body Hc.
  all: try (split; [reflexivity|];
            first [ left; reflexivity | right; rewrite Hc; discriminate ]).
  all: eexists _, _.
  all: (split; [rewrite <- ?app_assoc; reflexivity|]).
  all: do 6 (split; [reflexivity|]).
  all: rewrite Hc; eauto.
Qed.

(** ** The handler *)

Lemma handleReport_ret body ua0 ip0 w w' :
  handleReport body ua0 ip0 w = (Ret tt, w') →
  ∃ data logs,
    w' = {| ticks := S (ticks w); console := console w ++ LogValue body :: logs;
            sent := sent w ++ [data]; apps := apps w |} ∧
    nullish body = false ∧
    rt_tstart data = clock (ticks w) ∧ rt_end data = clock (ticks w) ∧
    http_initiator data = "error" ∧ ua data = ua0 ∧ ip data = ip0 ∧
    match classify body with
    | Unknown => u data = None ∧ err data = None
    | k => ∃ m, err data = Some (JSURL_stringify
             [record (title k) (clock (ticks w)) m (shape k)])
    end.
Proof.
  intros Hrun. pose proof (handleReport_spec body ua0 ip0 w) as H.
  unfold wp in H. by rewrite Hrun in H.
Qed.

Lemma handleReport_throw body ua0 ip0 w e w' :
  handleReport body ua0 ip0 w = (Throw e, w') →
  w' = {| ticks := S (ticks w); console := console w ++ [LogValue body];
          sent := sent w; apps := apps w |} ∧
  (nullish body = true ∨ classify body ≠ Unknown).
Proof.
  intros Hrun. pose proof (handleReport_spec body ua0 ip0 w) as H.
  unfold wp in H. by rewrite Hrun in H.
Qed.

(** An unknown report that is neither [null] nor [undefined] is handled
    without an exception. *)
Lemma handleReport_unknown body ua0 ip0 w :
  nullish body = false → classify body = Unknown →
  ∃ w', handleReport body ua0 ip0 w = (Ret tt, w').
Proof.
  intros Hb Hk. destruct (handleReport body ua0 ip0 w) as [[[]|e] w'] eqn:Hrun.
  - by exists w'.
  - apply handleReport_throw in Hrun as [_ [H|H]]; congruence.
Qed.

Lemma title_in_titles k : k ≠ Unknown → title k ∈ titles.
Proof.
  intros Hk. unfold titles.
  destruct k; try congruence; cbn [title]; repeat constructor.
Qed.

(** C6, for a report other than [null] and [undefined]: a beacon that is
    sent carries the capture time in both [rt.tstart] and [rt.end] and the
    literal ["error"] in [http.initiator]; for an unknown report it has
    neither [u] nor [err], the call returns, and the loop counts the
    report.  On [null] the first property read raises, and nothing is
    sent. *)
Theorem C6_beacon_context body ua0 ip0 w (Hbody : nullish body = false) :
  (∀ w', handleReport body ua0 ip0 w = (Ret tt, w') →
     ∃ data, sent w' = sent w ++ [data] ∧
       rt_tstart data = clock (ticks w) ∧ rt_end data = clock (ticks w) ∧
       http_initiator data = "error" ∧ ua data = ua0 ∧ ip data = ip0) ∧
  (classify body = Unknown →
     ∃ w', handleReport body ua0 ip0 w = (Ret tt, w') ∧
       sent w' = sent w ++
         [{| rt_tstart := clock (ticks w); rt_end := clock (ticks w);
             http_initiator := "error"; ua := ua0; ip := ip0;
             u := None; err := None |}] ∧
       ∀ n, handleReports [body] ua0 ip0 n w = (Ret (S n), w')).
Proof.
  split.
  - intros w' Hrun.
    apply handleReport_ret in Hrun as (data & logs & -> & _ & ? & ? & ? & ? & ? & _).
    by exists data.
  - intros Hk. destruct (handleReport_unknown body ua0 ip0 w Hbody Hk) as [w' Hrun].
    exists w'. split; [done|].
    pose proof Hrun as Hret.
    apply handleReport_ret in Hret as (data & logs & -> & _ & ? & ? & ? & ? & ? & Hd).
    rewrite Hk in Hd. destruct Hd as [Hu He]. split.
    + cbn [sent]. f_equal. destruct data; cbn in *; by subst.
    + intros n. cbn [handleReports]. unfold mbind, M_bind. by rewrite Hrun.
Qed.

(** C8: the record encoded for a report of a recognised kind has [v = 0],
    a title of the fixed set and, as [d], the capture time in base 36. *)
Theorem C8_error_record body ua0 ip0 w w'
    (Hrun : handleReport body ua0 ip0 w = (Ret tt, w'))
    (Hkind : classify body ≠ Unknown) :
  ∃ data rec,
    sent w' = sent w ++ [data] ∧
    err data = Some (JSURL_stringify [rec]) ∧
    err_v rec = 0 ∧
    err_t rec = title (classify body) ∧ err_t rec ∈ titles ∧
    err_d rec = toString36 (clock (ticks w)) ∧
    parse36 (err_d rec) = Some (clock (ticks w)).
Proof.
  apply handleReport_ret in Hrun as (data & logs & -> & _ & _ & _ & _ & _ & _ & Hd).
  assert (∃ m, err data = Some (JSURL_stringify
            [record (title (classify body)) (clock (ticks w)) m (shape (classify body))]))
    as [m Hm] by (destruct (classify body); done).
  exists data, (record (title (classify body)) (clock (ticks w)) m (shape (classify body))).
  split; [done|]. split; [done|]. split; [done|]. split; [done|].
  split; [by apply title_in_titles|]. split; [done|]. apply parse36_toString36.
Qed.

(** C9: the switch is off, and no record handed to the encoder carries a
    detail: its [f] is [undefined], or the key is not there at all. *)
Theorem C9_no_detail body ua0 ip0 w w'
    (Hrun : handleReport body ua0 ip0 w = (Ret tt, w')) :
  INCLUDE_FULL_REPORT = false ∧
  ∃ data, sent w' = sent w ++ [data] ∧
    (err data = None ∨
     ∃ rec, err data = Some (JSURL_stringify [rec]) ∧
            (err_f rec = f_undefined ∨ err_f rec = f_absent)).
Proof.
  split; [done|].
  apply handleReport_ret in Hrun as (data & logs & -> & _ & _ & _ & _ & _ & _ & Hd).
  exists data. split; [done|].
  destruct (classify body); try (right; destruct Hd as [m Hm]; eexists; split; [exact Hm|]; cbn; auto).
  left. apply Hd.
Qed.

Lemma is_str_true x s : is_str x s = true → x = VStr s.
Proof.
  destruct x; try discriminate. cbn. intros H. apply String.eqb_eq in H. by subst.
Qed.

Lemma prop_nullish x k : nullish x = true → prop x k = VUndefined.
Proof. by destruct x. Qed.

Lemma prop_not_undefined x k : prop x k ≠ VUndefined → nullish x = false.
Proof. by destruct x. Qed.

(** Execution along the path the hypotheses fix. *)
Ltac wp_known :=
  repeat first
    [ match goal with
      | H : ?x = _ |- wp (match ?x with _ => _ end) _ _ _ => rewrite H
      | H : ?x = _ |- match ?x with _ => _ end => rewrite H
      | |- match ToString (VStr _) with _ => _ end => cbn [ToString]
      end
    | wp_step ].

(** ** The host of an http(s) URL *)

Lemma hostlike_tail c h : hostlike (String c h) = true → hostlike h = true.
Proof.
  destruct h as [|c' h']; [done|].
  change (hostlike (String c (String c' h')))
    with (negb (Ascii.eqb c "/") && hostlike (String c' h')).
  by intros [_ ?]%andb_prop.
Qed.

Lemma hostlike_head c h : hostlike (String c h) = true → c ≠ "/"%char.
Proof. intros H ->. by destruct h. Qed.








Lemma hostlike_no_slash h : hostlike h = true → ¬ occurs "/" h.
Proof.
  induction h as [|c h IH]; intros Hh (i & a & b & Hs & _).
  - destruct a; discriminate.
  - destruct a as [|c' a].
    + injection Hs as -> _. by apply hostlike_head in Hh.
    + injection Hs as _ Hs. apply IH; [by apply hostlike_tail in Hh|].
      by exists (String.length a), a, b.
Qed.



(** What [handleReport] does on a CSP report with its sub-fields. *)
Lemma csp_run body csp blocked directive ua0 ip0 w
    (Hcsp : csp_report body csp blocked directive) :
  ∃ data dir host s1 s2,
    handleReport body ua0 ip0 w =
      (Ret tt, {| ticks := S (ticks w); console := console w ++ [LogValue body];
                  sent := sent w ++ [data]; apps := apps w |}) ∧
    u data = Some (prop csp "document-uri") ∧
    err data = Some (JSURL_stringify
      [record "Content Security Policy" (clock (ticks w))
         (dir +:+ ": " +:+ host) f_undefined]) ∧
    cut_before " " directive dir ∧
    removed_first "http://" blocked s1 ∧
    removed_first "https://" s1 s2 ∧
    cut_before "/" s2 host.
Proof.
  destruct Hcsp as (Hkind & Hpay & Hblocked & Hdir).
  assert (Hc : nullish csp = false).
  { apply (prop_not_undefined csp "blocked-uri"). by rewrite Hblocked. }
  assert (Hb : nullish body = false).
  { destruct body; try done; cbn in Hkind; destruct Hkind; discriminate. }
  set (s1 := replace blocked "http://" "").
  set (s2 := replace s1 "https://" "").
  pose (host := if negb (indexOf s2 "/" =? -1) then substring s2 0 (indexOf s2 "/") else s2).
  pose (dir := if negb (indexOf directive " " =? -1)
               then substring directive 0 (indexOf directive " ") else directive).
  pose (data := {| rt_tstart := clock (ticks w); rt_end := clock (ticks w);
                   http_initiator := "error"; ua := ua0; ip := ip0;
                   u := Some (prop csp "document-uri");
                   err := Some (JSURL_stringify
                     [record "Content Security Policy" (clock (ticks w))
                        (dir +:+ ": " +:+ host) f_undefined]) |}).
  exists data, dir, host, s1, s2.
  split; [|split; [done|]; split; [done|]; split; [apply cut_spec|];
           split; [apply replace_spec|]; split; [apply replace_spec | apply cut_spec]].
  assert (Hwp : wp (handleReport body ua0 ip0) w
            (λ _ w', w' = {| ticks := S (ticks w); console := console w ++ [LogValue body];
                             sent := sent w ++ [data]; apps := apps w |})
            (λ _ _, False)).
  { unfold handleReport, INCLUDE_FULL_REPORT, or_else in *.
    destruct (ToBoolean (prop body "csp-report")) eqn:Hm;
      destruct (is_str (prop body "type") "csp") eqn:Ht;
      try (destruct Hkind; discriminate); clear Hkind; subst csp;
      destruct (ToBoolean (prop _ "effective-directive")) eqn:He;
      wp_known.
    all: subst data dir host s2 s1; cbv zeta; unfold set_err, set_u; cbn [u err rt_tstart rt_end http_initiator ua ip].
    all: reflexivity. }
  unfold wp in Hwp. destruct (handleReport body ua0 ip0 w) as [[[]|e] w']; [by subst | done].
Qed.


Lemma or_else_present x y s : x = VStr s → s ≠ "" → or_else x y = VStr s.
Proof.
  intros -> Hs. unfold or_else. cbn.
  destruct (String.eqb s "") eqn:E; [|done]. by apply String.eqb_eq in E.
Qed.

Lemma or_else_absent y : or_else VUndefined y = y.
Proof. done. Qed.

Lemma removed_first_absent pat s r :
  removed_first pat s r → ¬ occurs pat s → r = s.
Proof.
  intros [[_ ->]|(a & b & Hs & _ & _)] Hno; [done|].
  exfalso. apply Hno. exists (String.length a), a, b. done.
Qed.

Lemma classify_XSS body :
  classify body = XSS →
  ToBoolean (prop body "csp-report") = false ∧
  is_str (prop body "type") "csp" = false ∧
  is_str (prop body "type") "network-error" = false ∧
  is_str (prop body "type") "deprecation" = false ∧
  is_str (prop body "type") "intervention" = false ∧
  is_str (prop body "type") "crash" = false ∧
  is_str (prop body "type") "feature-policy-violation" = false ∧
  ToBoolean (prop body "xss-report") = true.
Proof.
  unfold classify, kind_of_type.
  repeat match goal with
         | |- context [if ?b then _ else _] => destruct b; try discriminate
         end.
  done.
Qed.

(** What [handleReport] does on an XSS report. *)
Lemma xss_run body url ua0 ip0 w :
  xss_report body url →
  handleReport body ua0 ip0 w =
    (Ret tt,
     {| ticks := S (ticks w); console := console w ++ [LogValue body];
        sent := sent w ++
          [{| rt_tstart := clock (ticks w); rt_end := clock (ticks w);
              http_initiator := "error"; ua := ua0; ip := ip0; u := None;
              err := Some (JSURL_stringify
                [record "XSS Report" (clock (ticks w))
                   (replace (replace url "http://" "") "https://" "")
                   f_undefined]) |}];
        apps := apps w |}).
Proof.
  intros [Hk Hurl].
  apply classify_XSS in Hk as (H1 & H2 & H3 & H4 & H5 & H6 & H7 & H8).
  assert (Hb : nullish body = false) by (by destruct body).
  assert (Hx : nullish (prop body "xss-report") = false).
  { apply (prop_not_undefined _ "request-url"). by rewrite Hurl. }
  match goal with
  | |- ?c ?w = (Ret tt, ?w1) =>
      assert (Hwp : wp c w (λ _ w', w' = w1) (λ _ _, False))
  end.
  { unfold handleReport, INCLUDE_FULL_REPORT. wp_known. reflexivity. }
  unfold wp in Hwp. destruct (handleReport body ua0 ip0 w) as [[[]|e] w']; [by subst | done].
Qed.

(** C10: the scheme is stripped by removing the first ["http://"] and then
    the first ["https://"], wherever they stand, from the [request-url] of
    an XSS report and from the [blocked-uri] of a CSP report; a string
    holding neither is left as it is. *)
Theorem C10_scheme_stripping body url ua0 ip0 w
    (Hreport : xss_report body url ∨
               ∃ csp directive, csp_report body csp url directive) :
  ∃ data rec s1 s2,
    handleReport body ua0 ip0 w =
      (Ret tt, {| ticks := S (ticks w); console := console w ++ [LogValue body];
                  sent := sent w ++ [data]; apps := apps w |}) ∧
    err data = Some (JSURL_stringify [rec]) ∧
    err_t rec = title (classify body) ∧
    removed_first "http://" url s1 ∧
    removed_first "https://" s1 s2 ∧
    (¬ occurs "http://" url → ¬ occurs "https://" url → s2 = url) ∧
    match classify body with
    | XSS => err_m rec = s2
    | _ => ∃ dir host, err_m rec = dir +:+ ": " +:+ host ∧ cut_before "/" s2 host
    end.
Proof.
  destruct Hreport as [Hxss | (csp & directive & Hcsp)].
  - pose proof (xss_run body url ua0 ip0 w Hxss) as Hrun.
    destruct Hxss as [Hk _]. rewrite Hk.
    eexists _, (record "XSS Report" (clock (ticks w))
                  (replace (replace url "http://" "") "https://" "") f_undefined),
      (replace url "http://" ""), _.
    split; [exact Hrun|]. split; [reflexivity|]. split; [reflexivity|].
    split; [apply replace_spec|]. split; [apply replace_spec|].
    split; [|reflexivity].
    intros Hno1 Hno2.
    assert (replace url "http://" "" = url) as ->
      by (apply (removed_first_absent "http://"); [apply replace_spec | done]).
    apply (removed_first_absent "https://"); [apply replace_spec | done].
  - destruct (csp_run body csp url directive ua0 ip0 w Hcsp)
      as (data & dir & host & s1 & s2 & Hrun & _ & Herr & _ & Hs1 & Hs2 & Hhost).
    assert (Hk : classify body = CSP).
    { destruct Hcsp as ([Ht|Hm] & _).
      - unfold classify, kind_of_type. rewrite Ht. by destruct (ToBoolean _).
      - unfold classify. by rewrite Hm. }
    rewrite Hk.
    exists data, (record "Content Security Policy" (clock (ticks w))
                    (dir +:+ ": " +:+ host) f_undefined), s1, s2.
    split; [exact Hrun|]. split; [exact Herr|]. split; [reflexivity|].
    split; [done|]. split; [done|].
    split; [|by exists dir, host].
    intros Hno1 Hno2.
    assert (s1 = url) as -> by (by apply (removed_first_absent "http://")).
    by apply (removed_first_absent "https://").
Qed.

(** C3, as the code orders it: the [csp-report] marker is looked at
    together with [type === "csp"], before any other [type]; the [type]
    discriminator then wins over the [xss-report] and [expect-ct-report]
    markers; a report that is not [null] and matches nothing is unknown
    and raises no exception. *)
Theorem C3_classification_order body ua0 ip0 w (Hbody : nullish body = false) :
  (∀ w', handleReport body ua0 ip0 w = (Ret tt, w') →
     ∃ data, sent w' = sent w ++ [data] ∧
       match classify body with
       | Unknown => u data = None ∧ err data = None
       | k => ∃ m, err data = Some (JSURL_stringify
                [record (title k) (clock (ticks w)) m (shape k)])
       end) ∧
  (classify body = Unknown → ∃ w', handleReport body ua0 ip0 w = (Ret tt, w')) ∧
  (ToBoolean (prop body "csp-report") = true → classify body = CSP) ∧
  (ToBoolean (prop body "csp-report") = false →
     ∀ k, kind_of_type (prop body "type") = Some k → classify body = k) ∧
  (ToBoolean (prop body "csp-report") = false →
     kind_of_type (prop body "type") = None →
     classify body =
       if ToBoolean (prop body "xss-report") then XSS
       else if ToBoolean (prop body "expect-ct-report") then ExpectCT
       else Unknown).
Proof.
  split; [|split; [|split; [|split]]].
  - intros w' Hrun.
    apply handleReport_ret in Hrun as (data & logs & -> & _ & _ & _ & _ & _ & _ & Hd).
    by exists data.
  - by apply handleReport_unknown.
  - intros Hm. unfold classify. by rewrite Hm.
  - intros Hm k Hk. unfold classify. by rewrite Hm, Hk.
  - intros Hm Hk. unfold classify. by rewrite Hm, Hk.
Qed.

(** ** The route *)

Lemma post_report_accepted request apiKey w :
  accepted request apiKey →
  ∃ w1, sent w1 = sent w ∧ ticks w1 = ticks w ∧
    post_report request w =
      ((match req_body request with
        | VArr items =>
            handleReports items (req_user_agent request)
              (or_else (req_x_forwarded_for request) (req_ip request)) 0
        | _ =>
            handleReport (req_body request) (req_user_agent request)
              (or_else (req_x_forwarded_for request) (req_ip request)) ;;
            mret 1%nat
        end) ≫= λ n, mret (ReplySuccess n)) w1.
Proof.
  intros (Hbody & Hkey & Hne & Hsecret).
  unfold post_report. rewrite Hbody, Hkey. cbn [negb].
  destruct apiKey as [|c k]; [done|]. rewrite Hsecret. cbn [negb].
  unfold mbind at 1, M_bind at 1, get_apps.
  unfold mbind at 1, M_bind at 1.
  destruct (read_member (apps w) (String c k)).
  - by exists w.
  - by exists w.
  - unfold mbind at 1, M_bind at 1, console_log, set_app.
    eexists. split; [|split; [|reflexivity]]; done.
Qed.

Lemma handleReports_returns items ua0 ip0 n w :
  Forall returns items →
  ∃ w' beacons,
    handleReports items ua0 ip0 n w = (Ret (n + length items)%nat, w') ∧
    sent w' = sent w ++ beacons ∧ Forall2 beacon_of items beacons.
Proof.
  intros Hall. revert n w.
  induction Hall as [|item items Hitem _ IH]; intros n w.
  - exists w, []. cbn. rewrite Nat.add_0_r, app_nil_r. done.
  - specialize (Hitem ua0 ip0 w).
    destruct (handleReport item ua0 ip0 w) as [o w1] eqn:Hrun.
    cbn in Hitem. subst o.
    pose proof Hrun as Hret.
    apply handleReport_ret in Hret
      as (data & logs & Hw1 & _ & Ht1 & Ht2 & Hi & _ & _ & Hd).
    destruct (IH (S n) w1) as (w' & beacons & Hrest & Hsent & Hall2).
    exists w', (data :: beacons).
    split; [|split].
    + cbn [handleReports]. unfold mbind at 1, M_bind at 1. rewrite Hrun, Hrest.
      f_equal. f_equal. cbn [length]. lia.
    + rewrite Hsent, Hw1. cbn [sent]. by rewrite <- app_assoc.
    + constructor; [|done]. split; [done|]. split; [congruence|].
      destruct (classify item); try done; destruct Hd as [m Hm]; eauto.
Qed.

Lemma handleReports_raises pre bad post ua0 ip0 n w :
  Forall returns pre → raises bad →
  ∃ w' beacons,
    handleReports (pre ++ bad :: post) ua0 ip0 n w = (Throw TypeError, w') ∧
    sent w' = sent w ++ beacons ∧ Forall2 beacon_of pre beacons.
Proof.
  intros Hall Hbad. revert n w.
  induction Hall as [|item items Hitem _ IH]; intros n w.
  - specialize (Hbad ua0 ip0 w).
    destruct (handleReport bad ua0 ip0 w) as [o w1] eqn:Hrun.
    cbn in Hbad. subst o.
    exists w1, []. split; [|split; [|constructor]].
    + cbn [app handleReports]. unfold mbind at 1, M_bind at 1. by rewrite Hrun.
    + apply handleReport_throw in Hrun as [-> _]. cbn [sent]. by rewrite app_nil_r.
  - specialize (Hitem ua0 ip0 w).
    destruct (handleReport item ua0 ip0 w) as [o w1] eqn:Hrun.
    cbn in Hitem. subst o.
    pose proof Hrun as Hret.
    apply handleReport_ret in Hret
      as (data & logs & Hw1 & _ & Ht1 & Ht2 & Hi & _ & _ & Hd).
    destruct (IH (S n) w1) as (w' & beacons & Hrest & Hsent & Hall2).
    exists w', (data :: beacons).
    split; [|split].
    + change ((item :: items) ++ bad :: post) with (item :: (items ++ bad :: post)).
      cbn [handleReports]. unfold mbind at 1, M_bind at 1. by rewrite Hrun, Hrest.
    + rewrite Hsent, Hw1. cbn [sent]. by rewrite <- app_assoc.
    + constructor; [|done]. split; [done|]. split; [congruence|].
      destruct (classify item); try done; destruct Hd as [m Hm]; eauto.
Qed.

(** A CSP report without payload or without a string [blocked-uri] makes
    [handleReport] raise. *)
Lemma csp_missing_field_raises body : csp_missing_field body → raises body.
Proof.
  intros (Hkind & Hmiss) ua0 ip0 w.
  assert (Hb : nullish body = false).
  { destruct body; try done; cbn in Hkind; destruct Hkind; discriminate. }
  assert (Hwp : wp (handleReport body ua0 ip0) w (λ _ _, False) (λ e _, e = TypeError)).
  { unfold handleReport, INCLUDE_FULL_REPORT, or_else in *. cbv zeta in Hmiss.
    destruct (ToBoolean (prop body "csp-report")) eqn:Hm;
      destruct (is_str (prop body "type") "csp") eqn:Ht;
      try (destruct Hkind; discriminate); clear Hkind;
      destruct Hmiss as [Hn|Hn];
      wp_known; try done.
    all: by (exfalso; eapply Hn). }
  unfold wp in Hwp.
  destruct (handleReport body ua0 ip0 w) as [[[]|e] w']; [done | by subst].
Qed.

(** C5, for reports the handler processes without raising: an array of
    [n] such reports gets [n] beacons, one per element and in order, and
    [handled = n], whatever the kinds; a truthy body that is not an array
    is handled as one report. *)
Theorem C5_batch_count request apiKey w (Hreq : accepted request apiKey) :
  (∀ items, req_body request = VArr items → Forall returns items →
     ∃ w' beacons,
       post_report request w = (Ret (ReplySuccess (length items)), w') ∧
       sent w' = sent w ++ beacons ∧ Forall2 beacon_of items beacons) ∧
  ((∀ items, req_body request ≠ VArr items) → returns (req_body request) →
     ∃ w' data,
       post_report request w = (Ret (ReplySuccess 1), w') ∧
       sent w' = sent w ++ [data] ∧ beacon_of (req_body request) data).
Proof.
  destruct (post_report_accepted request apiKey w Hreq) as (w1 & Hs & _ & Hrun).
  split.
  - intros items Hbody Hall. rewrite Hbody in Hrun.
    destruct (handleReports_returns items (req_user_agent request)
                (or_else (req_x_forwarded_for request) (req_ip request)) 0 w1 Hall)
      as (w' & beacons & Hloop & Hsent & Hall2).
    exists w', beacons. split; [|split; [congruence | done]].
    rewrite Hrun. unfold mbind at 1, M_bind at 1. by rewrite Hloop.
  - intros Hnot Hret.
    destruct (handleReports_returns [req_body request] (req_user_agent request)
                (or_else (req_x_forwarded_for request) (req_ip request)) 0 w1)
      as (w' & beacons & Hloop & Hsent & Hall2).
    { by constructor. }
    inversion Hall2 as [|? data ? rest Hone Hnil]; subst.
    inversion Hnil; subst.
    exists w', data. split; [|split; [congruence | done]].
    rewrite Hrun.
    cbn [handleReports] in Hloop. unfold mbind, M_bind in Hloop |- *.
    destruct (handleReport _ _ _ w1) as [[[]|e] w2] eqn:Hh.
    + assert (w2 = w') by (unfold mret, M_ret in Hloop; congruence). subst.
      unfold mret, M_ret.
      destruct (req_body request); try (by rewrite Hh); by destruct (Hnot items).
    + discriminate.
Qed.

(** C2, as the code behaves: a CSP report without payload, or without a
    string [blocked-uri], raises a [TypeError] in [handleReport]; in a
    batch the exception leaves the route at that element: the beacons of
    the elements before it have been sent, none is sent for it or for the
    elements after it, and no reply is produced. *)
Theorem C2_malformed_report_aborts request apiKey w pre bad post
    (Hreq : accepted request apiKey)
    (Hbody : req_body request = VArr (pre ++ bad :: post))
    (Hpre : Forall returns pre)
    (Hbad : csp_missing_field bad) :
  raises bad ∧
  ∃ w' beacons,
    post_report request w = (Throw TypeError, w') ∧
    sent w' = sent w ++ beacons ∧ Forall2 beacon_of pre beacons.
Proof.
  pose proof (csp_missing_field_raises bad Hbad) as Hraise.
  split; [done|].
  destruct (post_report_accepted request apiKey w Hreq) as (w1 & Hs & _ & Hrun).
  rewrite Hbody in Hrun.
  destruct (handleReports_raises pre bad post (req_user_agent request)
              (or_else (req_x_forwarded_for request) (req_ip request)) 0 w1 Hpre Hraise)
    as (w' & beacons & Hloop & Hsent & Hall2).
  exists w', beacons. split; [|split; [congruence | done]].
  rewrite Hrun. unfold mbind at 1, M_bind at 1. by rewrite Hloop.
Qed.

(** The three checks of the route: a falsy body, a missing key, or a key
    that [appLookup] neither holds nor inherits, gets an error reply, and
    nothing else happens. *)
Lemma request_level_error request w :
  ToBoolean (req_body request) = false ∨
  req_apiKey request = None ∨ req_apiKey request = Some "" ∨
  (∃ k, req_apiKey request = Some k ∧
        member_ToBoolean (read_member appLookup k) = false) →
  ∃ message, post_report request w = (Ret (ReplyError message), w).
Proof.
  unfold post_report. intros [Hb|Hk].
  - rewrite Hb. by eexists.
  - destruct (ToBoolean (req_body request)); [|by eexists]. cbn [negb].
    destruct Hk as [->|[->|(k & -> & Hk)]]; [by eexists | by eexists |].
    destruct k as [|c k]; [by eexists|]. rewrite Hk. by eexists.
Qed.

(** A key that is neither in [apps.json] nor a name of [Object.prototype]
    is refused. *)
Lemma read_member_missing k :
  appLookup !! k = None → k ∉ Object_prototype →
  member_ToBoolean (read_member appLookup k) = false.
Proof.
  intros Hk Hp. unfold read_member. rewrite Hk.
  by rewrite bool_decide_eq_false_2.
Qed.

(** A name of [Object.prototype] passes the credential check although
    [apps.json] does not hold it. *)
Lemma read_member_inherited k :
  appLookup !! k = None → k ∈ Object_prototype →
  member_ToBoolean (read_member appLookup k) = true.
Proof.
  intros Hk Hp. unfold read_member. rewrite Hk.
  by rewrite bool_decide_eq_true_2.
Qed.


(** ** Effects of the handler *)

(** [handleReport] with its log and the source of [u] spelled out. *)
Lemma handleReport_full body ua0 ip0 w :
  wp (handleReport body ua0 ip0) w
    (λ _ w', ∃ data,
       w' = {| ticks := S (ticks w);
               console := console w ++ LogValue body :: diagnostics body;
               sent := sent w ++ [data]; apps := apps w |} ∧
       u data = u_of body)
    (λ _ w', True).
Proof.
  unfold handleReport, INCLUDE_FULL_REPORT.
  repeat wp_step.
  all: try exact I.
  all: let Hc := fresh "Hc" in classify_in body Hc.
  all: eexists; unfold diagnostics, u_of, or_else; rewrite Hc;
       repeat match goal with
              | H : ?c = _ |- context [if ?c then _ else _] => rewrite H
              end;
       (split; [rewrite <- ?app_assoc; reflexivity | reflexivity]).
Qed.

Lemma handleReport_frame body ua0 ip0 w :
  ticks (handleReport body ua0 ip0 w).2 = S (ticks w) ∧
  apps (handleReport body ua0 ip0 w).2 = apps w ∧
  match (handleReport body ua0 ip0 w).1 with
  | Ret _ => ∃ data, sent (handleReport body ua0 ip0 w).2 = sent w ++ [data]
  | Throw _ =>
      sent (handleReport body ua0 ip0 w).2 = sent w ∧
      console (handleReport body ua0 ip0 w).2 = console w ++ [LogValue body]
  end.
Proof.
  pose proof (handleReport_spec body ua0 ip0 w) as H. unfold wp in H.
  destruct (handleReport body ua0 ip0 w) as [[[]|e] w'].
  - destruct H as (data & logs & -> & _). cbn. eauto.
  - destruct H as [-> _]. cbn. eauto.
Qed.

(** X1: whatever the report, [handleReport] reads the clock once and leaves
    the session cache alone; it sends one beacon when it returns and none
    when it raises, in which case the report is the only thing it logged. *)
Theorem handleReport_effects body ua0 ip0 w :
  ticks (handleReport body ua0 ip0 w).2 = S (ticks w) ∧
  apps (handleReport body ua0 ip0 w).2 = apps w ∧
  match (handleReport body ua0 ip0 w).1 with
  | Ret _ => ∃ data, sent (handleReport body ua0 ip0 w).2 = sent w ++ [data]
  | Throw _ =>
      sent (handleReport body ua0 ip0 w).2 = sent w ∧
      console (handleReport body ua0 ip0 w).2 = console w ++ [LogValue body]
  end.
Proof. exact (handleReport_frame body ua0 ip0 w). Qed.

(** X2: the [u] of a beacon is the payload's [document-uri] for a CSP
    report, [body.url] for the five Reporting API kinds, and is not set
    for XSS, Expect-CT and unknown reports. *)
Theorem beacon_url_source body ua0 ip0 w w'
    (Hrun : handleReport body ua0 ip0 w = (Ret tt, w')) :
  ∃ data, sent w' = sent w ++ [data] ∧ u data = u_of body.
Proof.
  pose proof (handleReport_full body ua0 ip0 w) as H. unfold wp in H.
  rewrite Hrun in H. destruct H as (data & -> & Hu). by exists data.
Qed.

(** X3: a report that is handled is logged first; the two diagnostic lines
    follow for an unknown report and for no other. *)
Theorem diagnostics_for_unknown_only body ua0 ip0 w w'
    (Hrun : handleReport body ua0 ip0 w = (Ret tt, w')) :
  console w' = console w ++ LogValue body :: diagnostics body ∧
  (diagnostics body = [] ↔ classify body ≠ Unknown).
Proof.
  pose proof (handleReport_full body ua0 ip0 w) as H. unfold wp in H.
  rewrite Hrun in H. destruct H as (data & -> & _). split; [done|].
  unfold diagnostics. destruct (classify body); split; done.
Qed.

(** ** Messages of the Reporting API kinds *)

Lemma reporting_api_body body type payload :
  reporting_api body type payload → nullish body = false.
Proof. intros (_ & Ht & _). destruct body; try done; discriminate. Qed.

Ltac type_facts Htype :=
  let t := lazymatch type of Htype with ?x = _ => x end in
  assert (is_str t "csp" = false) by (rewrite Htype; reflexivity);
  try assert (is_str t "network-error" = false) by (rewrite Htype; reflexivity);
  try assert (is_str t "network-error" = true) by (rewrite Htype; reflexivity);
  try assert (is_str t "deprecation" = false) by (rewrite Htype; reflexivity);
  try assert (is_str t "deprecation" = true) by (rewrite Htype; reflexivity);
  try assert (is_str t "intervention" = false) by (rewrite Htype; reflexivity);
  try assert (is_str t "intervention" = true) by (rewrite Htype; reflexivity);
  try assert (is_str t "crash" = false) by (rewrite Htype; reflexivity);
  try assert (is_str t "crash" = true) by (rewrite Htype; reflexivity);
  try assert (is_str t "feature-policy-violation" = false) by (rewrite Htype; reflexivity);
  try assert (is_str t "feature-policy-violation" = true) by (rewrite Htype; reflexivity).

Ltac run_to w1 :=
  match goal with
  | |- ?c ?w = (Ret tt, _) =>
      let Hwp := fresh "Hwp" in
      assert (Hwp : wp c w (λ _ w', w' = w1) (λ _ _, False));
      [ unfold handleReport, INCLUDE_FULL_REPORT; wp_known; try reflexivity
      | unfold wp in Hwp;
        destruct (c w) as [[[]|?] ?]; [by subst | done] ]
  end.

(** What [handleReport] does on a Network Error Logging report. *)
Lemma nel_run body nel s1 s2 s3 s4 ua0 ip0 w
    (Hnel : reporting_api body "network-error" nel)
    (H1 : ToString (prop nel "type") = Ret s1)
    (H2 : ToString (prop nel "protocol") = Ret s2)
    (H3 : ToString (prop nel "method") = Ret s3)
    (H4 : ToString (prop nel "status_code") = Ret s4) :
  handleReport body ua0 ip0 w =
    (Ret tt,
     {| ticks := S (ticks w); console := console w ++ [LogValue body];
        sent := sent w ++
          [{| rt_tstart := clock (ticks w); rt_end := clock (ticks w);
              http_initiator := "error"; ua := ua0; ip := ip0;
              u := Some (prop body "url");
              err := Some (JSURL_stringify
                [record "Network Error Logging" (clock (ticks w))
                   (s1 +:+ " " +:+ s2 +:+ " " +:+ s3 +:+ " " +:+ s4)
                   f_undefined]) |}];
        apps := apps w |}).
Proof.
  pose proof (reporting_api_body _ _ _ Hnel) as Hb.
  destruct Hnel as (Hm & Htype & Hpay & Hn). subst nel. type_facts Htype.
  match goal with |- _ = (_, ?w1) => run_to w1 end.
Qed.

(** X4: the message of a Network Error Logging report is the payload's
    [type], [protocol], [method] and [status_code] as a template literal
    renders them, separated by single spaces; [u] is [body.url]. *)
Theorem nel_message body nel s1 s2 s3 s4 ua0 ip0 w
    (Hnel : reporting_api body "network-error" nel)
    (H1 : ToString (prop nel "type") = Ret s1)
    (H2 : ToString (prop nel "protocol") = Ret s2)
    (H3 : ToString (prop nel "method") = Ret s3)
    (H4 : ToString (prop nel "status_code") = Ret s4) :
  ∃ data rec,
    handleReport body ua0 ip0 w =
      (Ret tt, {| ticks := S (ticks w); console := console w ++ [LogValue body];
                  sent := sent w ++ [data]; apps := apps w |}) ∧
    u data = Some (prop body "url") ∧
    err data = Some (JSURL_stringify [rec]) ∧
    err_t rec = "Network Error Logging" ∧
    err_m rec = s1 +:+ " " +:+ s2 +:+ " " +:+ s3 +:+ " " +:+ s4 ∧
    err_f rec = f_undefined.
Proof.
  eexists _, (record "Network Error Logging" (clock (ticks w))
                (s1 +:+ " " +:+ s2 +:+ " " +:+ s3 +:+ " " +:+ s4) f_undefined).
  split; [exact (nel_run body nel s1 s2 s3 s4 ua0 ip0 w Hnel H1 H2 H3 H4)|].
  repeat split.
Qed.

(** What [handleReport] does on a report whose message is one field. *)
Lemma single_field_run body type field k payload s ua0 ip0 w
    (Hkind : (type, (field, k)) ∈ single_field)
    (Hreport : reporting_api body type payload)
    (Hfield : ToString (prop payload field) = Ret s) :
  handleReport body ua0 ip0 w =
    (Ret tt,
     {| ticks := S (ticks w); console := console w ++ [LogValue body];
        sent := sent w ++
          [{| rt_tstart := clock (ticks w); rt_end := clock (ticks w);
              http_initiator := "error"; ua := ua0; ip := ip0;
              u := Some (prop body "url");
              err := Some (JSURL_stringify
                [record (title k) (clock (ticks w)) s f_undefined]) |}];
        apps := apps w |}).
Proof.
  pose proof (reporting_api_body _ _ _ Hreport) as Hb.
  destruct Hreport as (Hm & Htype & Hpay & Hn). subst payload.
  unfold single_field in Hkind.
  repeat (apply elem_of_cons in Hkind as [Hkind|Hkind]);
    [| | | by apply elem_of_nil in Hkind];
    injection Hkind as -> -> ->; type_facts Htype;
    match goal with |- _ = (_, ?w1) => run_to w1 end.
Qed.

(** X7: the message of an Intervention, Crash or Feature Policy Violation
    report is the payload's [id], [reason] or [policyId] as a template
    literal renders it, under the title of the kind; [u] is [body.url]. *)
Theorem single_field_message body type field k payload s ua0 ip0 w
    (Hkind : (type, (field, k)) ∈ single_field)
    (Hreport : reporting_api body type payload)
    (Hfield : ToString (prop payload field) = Ret s) :
  ∃ data rec,
    handleReport body ua0 ip0 w =
      (Ret tt, {| ticks := S (ticks w); console := console w ++ [LogValue body];
                  sent := sent w ++ [data]; apps := apps w |}) ∧
    u data = Some (prop body "url") ∧
    err data = Some (JSURL_stringify [rec]) ∧
    err_t rec = title k ∧
    err_m rec = s ∧
    err_f rec = f_undefined.
Proof.
  eexists _, (record (title k) (clock (ticks w)) s f_undefined).
  split; [exact (single_field_run body type field k payload s ua0 ip0 w
                   Hkind Hreport Hfield)|].
  repeat split.
Qed.

(** What [handleReport] does on an Expect-CT report. *)
Lemma expect_ct_run body s ua0 ip0 w
    (Hkind : classify body = ExpectCT)
    (Hhost : ToString (prop (prop body "expect-ct-report") "hostname") = Ret s) :
  handleReport body ua0 ip0 w =
    (Ret tt,
     {| ticks := S (ticks w); console := console w ++ [LogValue body];
        sent := sent w ++
          [{| rt_tstart := clock (ticks w); rt_end := clock (ticks w);
              http_initiator := "error"; ua := ua0; ip := ip0; u := None;
              err := Some (JSURL_stringify
                [record "Expect-CT" (clock (ticks w)) s f_absent]) |}];
        apps := apps w |}).
Proof.
  unfold classify, kind_of_type in Hkind.
  repeat match type of Hkind with
         | context [if ?b then _ else _] => destruct b eqn:?; try discriminate Hkind
         end.
  assert (Hb : nullish body = false) by (by destruct body).
  assert (Hc : nullish (prop body "expect-ct-report") = false)
    by (by destruct (prop body "expect-ct-report")).
  match goal with |- _ = (_, ?w1) => run_to w1 end.
Qed.

(** X8: an Expect-CT report gives a beacon without [u], whose record has
    the title ["Expect-CT"], the [hostname] as message and no [f] key. *)
Theorem expect_ct_message body s ua0 ip0 w
    (Hkind : classify body = ExpectCT)
    (Hhost : ToString (prop (prop body "expect-ct-report") "hostname") = Ret s) :
  ∃ data rec,
    handleReport body ua0 ip0 w =
      (Ret tt, {| ticks := S (ticks w); console := console w ++ [LogValue body];
                  sent := sent w ++ [data]; apps := apps w |}) ∧
    u data = None ∧
    err data = Some (JSURL_stringify [rec]) ∧
    err_t rec = "Expect-CT" ∧
    err_m rec = s ∧
    err_f rec = f_absent.
Proof.
  eexists _, (record "Expect-CT" (clock (ticks w)) s f_absent).
  split; [exact (expect_ct_run body s ua0 ip0 w Hkind Hhost)|].
  repeat split.
Qed.

(** X9: [handleReport] raises on [null], and on a report whose [type]
    names one of the five Reporting API kinds but whose [body] is absent
    or [null]. *)
Theorem report_without_payload_raises body
    (Hbad : nullish body = true ∨
            (ToBoolean (prop body "csp-report") = false ∧
             (∃ k, kind_of_type (prop body "type") = Some k ∧ k ≠ CSP) ∧
             nullish (prop body "body") = true)) :
  raises body.
Proof.
  intros ua0 ip0 w.
  assert (Hwp : wp (handleReport body ua0 ip0) w (λ _ _, False) (λ e _, e = TypeError)).
  { unfold handleReport, INCLUDE_FULL_REPORT.
    destruct Hbad as [Hb | (Hm & (k & Hk & Hne) & Hn)].
    - wp_known. done.
    - assert (Hb : nullish body = false) by (destruct body; try done; discriminate).
      unfold kind_of_type in Hk.
      repeat match type of Hk with
             | context [if ?b then _ else _] => destruct b eqn:?
             end; try discriminate Hk; try (injection Hk as <-; done).
      all: wp_known; done. }
  unfold wp in Hwp.
  destruct (handleReport body ua0 ip0 w) as [[[]|e] w']; [done | by subst].
Qed.

(** ** Tokens of the CSP message, and the date token *)

Lemma cut_before_clean sep s r :
  sep ≠ "" → cut_before sep s r →
  ¬ occurs sep r ∧ ∃ rest, s = r +:+ rest.
Proof.
  intros Hsep [[Hno ->]|(b & Hs & Hmin)].
  - split; [done|]. exists "". clear. induction s as [|c s IH]; [done|].
    change (String c s = String c (s +:+ "")). by rewrite <- IH.
  - split; [|by exists (sep +:+ b)].
    intros (i & a & c & Hr & Ha).
    assert (Hocc : occurs_at sep s i).
    { exists a, (c +:+ sep +:+ b). split; [|done].
      rewrite Hs, Hr. by rewrite !app_assoc'. }
    apply Hmin in Hocc. rewrite Hr, !length_app in Hocc.
    destruct sep; [done|]. cbn in Hocc. lia.
Qed.

(** X10: in the message of a CSP report the directive token holds no space
    and is the beginning of the directive, and the host token holds no
    ["/"]. *)
Theorem csp_message_tokens body csp blocked directive ua0 ip0 w
    (Hcsp : csp_report body csp blocked directive) :
  ∃ data rec dir host,
    (handleReport body ua0 ip0 w).1 = Ret tt ∧
    sent (handleReport body ua0 ip0 w).2 = sent w ++ [data] ∧
    err data = Some (JSURL_stringify [rec]) ∧
    err_m rec = dir +:+ ": " +:+ host ∧
    ¬ occurs " " dir ∧ (∃ rest, directive = dir +:+ rest) ∧
    ¬ occurs "/" host.
Proof.
  destruct (csp_run body csp blocked directive ua0 ip0 w Hcsp)
    as (data & dir & host & s1 & s2 & Hrun & _ & Herr & Hdir & _ & _ & Hhost).
  exists data, (record "Content Security Policy" (clock (ticks w))
                  (dir +:+ ": " +:+ host) f_undefined), dir, host.
  rewrite Hrun. cbn [fst snd sent].
  split; [done|]. split; [done|]. split; [done|]. split; [reflexivity|].
  destruct (cut_before_clean " " directive dir) as [? ?]; [done | done |].
  destruct (cut_before_clean "/" s2 host) as [? ?]; [done | done |].
  done.
Qed.

Lemma numeral36_units s k v :
  numeral36 s k = Some v → all_units digit_unit s = true.
Proof.
  revert k. induction s as [|c s IH]; intros k; [done|].
  cbn [numeral36 all_units]. unfold digit_unit at 1.
  destruct (digit36_value c); [|done]. intros H. by rewrite (IH _ H).
Qed.

(** The shape of [toString36]: digits, after a sign for a negative number. *)
Lemma toString36_shape n :
  ∃ digits, digits ≠ "" ∧ all_units digit_unit digits = true ∧
            toString36 n = if n <? 0 then String "-" digits else digits.
Proof.
  unfold toString36.
  destruct (digits36_spec (Z.to_nat (Z.log2 (Z.abs n))) (Z.abs n) "")
    as (ds & Hds & Hne & Hval).
  { split; [lia | apply log2_bound; lia]. }
  cbv zeta. rewrite Hds.
  assert (ds +:+ "" = ds) as ->.
  { clear. induction ds as [|c ds IH]; [done|].
    change (String c (ds +:+ "") = String c ds). by rewrite IH. }
  exists ds. split; [done|]. split; [|done].
  exact (numeral36_units ds 0 _ (Hval 0)).
Qed.

(** X11: the date token of a record that is sent is a run of at least one
    digit or lower-case letter, after a minus sign exactly when the capture
    time is negative; no other time has the same token. *)
Theorem date_token_shape body ua0 ip0 w w'
    (Hrun : handleReport body ua0 ip0 w = (Ret tt, w'))
    (Hkind : classify body ≠ Unknown) :
  ∃ data rec digits,
    sent w' = sent w ++ [data] ∧
    err data = Some (JSURL_stringify [rec]) ∧
    err_d rec = (if clock (ticks w) <? 0 then String "-" digits else digits) ∧
    digits ≠ "" ∧ all_units digit_unit digits = true ∧
    ∀ t, toString36 t = err_d rec → t = clock (ticks w).
Proof.
  apply handleReport_ret in Hrun as (data & logs & -> & _ & _ & _ & _ & _ & _ & Hd).
  assert (∃ m, err data = Some (JSURL_stringify
            [record (title (classify body)) (clock (ticks w)) m (shape (classify body))]))
    as [m Hm] by (destruct (classify body); done).
  destruct (toString36_shape (clock (ticks w))) as (digits & Hne & Hunits & Hshape).
  exists data,
    (record (title (classify body)) (clock (ticks w)) m (shape (classify body))),
    digits.
  split; [done|]. split; [done|]. split; [exact Hshape|].
  split; [done|]. split; [done|].
  intros t Ht. cbn [record err_d] in Ht.
  pose proof (parse36_toString36 t) as Hp.
  rewrite Ht, parse36_toString36 in Hp. congruence.
Qed.

(** ** The route: checks, sessions and batches *)

(** X13: the credential check lets a key through exactly when [apps.json]
    holds it with a truthy secret, or does not hold it while
    [Object.prototype] has a member of that name. *)
Theorem credential_check k :
  member_ToBoolean (read_member appLookup k) = true ↔
  (∃ secret, appLookup !! k = Some secret ∧ ToBoolean secret = true) ∨
  (appLookup !! k = None ∧ k ∈ Object_prototype).
Proof.
  unfold read_member. destruct (appLookup !! k) as [secret|] eqn:Hk.
  - cbn. split; [intros H; left; by exists secret|].
    intros [(s & Hs & Ht)|[? _]]; congruence.
  - destruct (bool_decide (k ∈ Object_prototype)) eqn:Hp.
    + apply bool_decide_eq_true_1 in Hp. split; [by right | done].
    + apply bool_decide_eq_false_1 in Hp. cbn. split; [done|].
      intros [(s & Hs & _)|[_ ?]]; done.
Qed.

(** X14: the three checks run in this order, each with its own message, and
    a refused request changes nothing: no log, no session, no clock
    reading, no beacon. *)
Theorem request_checks_in_order request w :
  (ToBoolean (req_body request) = false →
     post_report request w = (Ret (ReplyError "No Request body"), w)) ∧
  (ToBoolean (req_body request) = true →
     req_apiKey request = None ∨ req_apiKey request = Some "" →
     post_report request w = (Ret (ReplyError "No API Key specified"), w)) ∧
  (ToBoolean (req_body request) = true →
     ∀ k, req_apiKey request = Some k → k ≠ "" →
       member_ToBoolean (read_member appLookup k) = false →
       post_report request w = (Ret (ReplyError "Unknown API key"), w)).
Proof.
  unfold post_report. split; [|split].
  - by intros ->.
  - intros -> [->| ->]; done.
  - intros -> k -> Hk Hm. destruct k as [|c k]; [done|]. by rewrite Hm.
Qed.

Lemma post_report_run request apiKey w :
  accepted request apiKey →
  post_report request w =
    ((match req_body request with
      | VArr items =>
          handleReports items (req_user_agent request)
            (or_else (req_x_forwarded_for request) (req_ip request)) 0
      | _ =>
          handleReport (req_body request) (req_user_agent request)
            (or_else (req_x_forwarded_for request) (req_ip request)) ;;
          mret 1%nat
      end) ≫= λ n, mret (ReplySuccess n)) (after_init w apiKey).
Proof.
  intros (Hbody & Hkey & Hne & Hsecret).
  unfold post_report, after_init. rewrite Hbody, Hkey. cbn [negb].
  destruct apiKey as [|c k]; [done|]. rewrite Hsecret. cbn [negb].
  unfold mbind at 1, M_bind at 1, get_apps.
  unfold mbind at 1, M_bind at 1.
  by destruct (read_member (apps w) (String c k)).
Qed.

(** What a run of the loop does, whether it ends or raises. *)
Lemma handleReports_effects items ua0 ip0 n w :
  apps (handleReports items ua0 ip0 n w).2 = apps w ∧
  ∃ beacons,
    sent (handleReports items ua0 ip0 n w).2 = sent w ++ beacons ∧
    (∀ i data, beacons !! i = Some data →
       ua data = ua0 ∧ ip data = ip0 ∧ http_initiator data = "error" ∧
       rt_tstart data = clock (ticks w + i) ∧ rt_end data = clock (ticks w + i)) ∧
    match (handleReports items ua0 ip0 n w).1 with
    | Ret m => m = (n + length items)%nat ∧ length beacons = length items
    | Throw _ => (length beacons < length items)%nat
    end.
Proof.
  revert n w. induction items as [|item items IH]; intros n w.
  - cbn. split; [done|]. exists []. rewrite app_nil_r.
    split; [done|]. split; [|split; [lia | done]].
    intros i data H. by rewrite lookup_nil in H.
  - assert (Hstep : handleReports (item :: items) ua0 ip0 n w =
                    match handleReport item ua0 ip0 w with
                    | (Ret _, w1) => handleReports items ua0 ip0 (S n) w1
                    | (Throw e, w1) => (Throw e, w1)
                    end) by reflexivity.
    rewrite Hstep. clear Hstep.
    pose proof (handleReport_spec item ua0 ip0 w) as H. unfold wp in H.
    destruct (handleReport item ua0 ip0 w) as [[[]|e] w1].
    + destruct H as (data & logs & -> & _ & Ht1 & Ht2 & Hi & Hua & Hip & _).
      match goal with
      | |- context [handleReports items ua0 ip0 (S n) ?w1] =>
          destruct (IH (S n) w1) as (Happs & beacons & Hsent & Hall & Hout)
      end.
      cbn [apps sent ticks] in *.
      split; [done|]. exists (data :: beacons).
      split; [rewrite Hsent; by rewrite <- app_assoc|].
      split.
      * intros [|i] d Hd.
        -- cbn in Hd. injection Hd as <-. by rewrite Nat.add_0_r.
        -- cbn in Hd. apply Hall in Hd.
           by replace (ticks w + S i)%nat with (S (ticks w) + i)%nat by lia.
      * destruct (handleReports items ua0 ip0 (S n) _).1; cbn [length]; lia.
    + destruct H as [-> _]. cbn [apps sent fst snd].
      split; [done|]. exists []. rewrite app_nil_r.
      split; [done|]. split; [|cbn; lia].
      intros i data Hd. by rewrite lookup_nil in Hd.
Qed.

Lemma after_init_frame w k :
  sent (after_init w k) = sent w ∧ ticks (after_init w k) = ticks w.
Proof. unfold after_init. by destruct (read_member (apps w) k). Qed.

Lemma read_member_cases {A : Type} (o : gmap string A) k :
  match read_member o k with
  | Own a => o !! k = Some a
  | Inherited _ => o !! k = None ∧ k ∈ Object_prototype
  | Missing => o !! k = None ∧ k ∉ Object_prototype
  end.
Proof.
  unfold read_member. destruct (o !! k); [done|].
  destruct (bool_decide (k ∈ Object_prototype)) eqn:Hp.
  - by apply bool_decide_eq_true_1 in Hp.
  - by apply bool_decide_eq_false_1 in Hp.
Qed.

(** The dispatch leaves the session cache as the lookup left it. *)
Lemma post_report_apps request apiKey w :
  accepted request apiKey →
  apps (post_report request w).2 = apps (after_init w apiKey).
Proof.
  intros Hreq. rewrite (post_report_run request apiKey w Hreq).
  generalize (after_init w apiKey). intros w1.
  unfold mbind at 1, M_bind at 1.
  destruct (req_body request) eqn:Hb.
  1-5,7: unfold mbind at 1, M_bind at 1;
    match goal with
    | |- context [handleReport ?b ?x ?y ?w0] =>
        pose proof (handleReport_frame b x y w0) as (_ & Ha & _);
        destruct (handleReport b x y w0) as [[[]|e] w2]; exact Ha
    end.
  match goal with
  | |- context [handleReports ?l ?x ?y 0%nat ?w0] =>
      pose proof (handleReports_effects l x y 0%nat w0) as (Ha & _);
      destruct (handleReports l x y 0%nat w0) as [[m|e] w2]; exact Ha
  end.
Qed.

(** X15: a request adds at most one session to the cache, the one of its
    own key, made from the key's secret in [apps.json]; it never replaces
    or removes a session, and never makes one for a name that is only
    inherited. *)
Theorem session_cache_step request w k :
  (apps (post_report request w).2) !! k = apps w !! k ∨
  (apps w !! k = None ∧ req_apiKey request = Some k ∧ (k ∉ Object_prototype) ∧
   ∃ secret, appLookup !! k = Some secret ∧ ToBoolean secret = true ∧
             (apps (post_report request w).2) !! k = Some (session k secret)).
Proof.
  destruct (ToBoolean (req_body request)) eqn:Hbody;
    [|left; unfold post_report; by rewrite Hbody].
  destruct (req_apiKey request) as [key|] eqn:Hkey;
    [|left; unfold post_report; by rewrite Hbody, Hkey].
  destruct (String.eqb key "") eqn:Hne.
  { apply String.eqb_eq in Hne as ->. left. unfold post_report. by rewrite Hbody, Hkey. }
  apply String.eqb_neq in Hne.
  destruct (member_ToBoolean (read_member appLookup key)) eqn:Hsecret.
  2:{ left. unfold post_report. rewrite Hbody, Hkey. cbn [negb].
      destruct key; [done|]. by rewrite Hsecret. }
  rewrite (post_report_apps request key w) by done.
  unfold after_init.
  pose proof (read_member_cases (apps w) key) as Hc.
  destruct (read_member (apps w) key) as [a|name|]; [by left | by left |].
  destruct Hc as [Hnone Hproto]. cbn [apps].
  destruct (decide (k = key)) as [->|Hk]; [|left; by rewrite lookup_insert_ne].
  right. split; [done|]. split; [done|]. split; [done|].
  pose proof (read_member_cases appLookup key) as Hl.
  destruct (read_member appLookup key) as [secret|name|]; [| by destruct Hl | done].
  exists secret. split; [done|]. split; [done|]. by rewrite lookup_insert_eq.
Qed.

(** X16: after an accepted request the session of its key is in the cache,
    unless the key is only a name of [Object.prototype], for which no
    session is ever made; sending the request again leaves the cache as it
    is. *)
Theorem session_ready request apiKey w (Hreq : accepted request apiKey) :
  (apiKey ∉ Object_prototype → is_Some ((apps (post_report request w).2) !! apiKey)) ∧
  (appLookup !! apiKey = None → apps (post_report request w).2 = apps w) ∧
  apps (post_report request (post_report request w).2).2 =
    apps (post_report request w).2.
Proof.
  assert (Hstable : ∀ w1, apps w1 = apps (after_init w apiKey) →
            apps (after_init w1 apiKey) = apps w1).
  { intros w1 Hw1. unfold after_init at 1. rewrite Hw1.
    pose proof (read_member_cases (apps (after_init w apiKey)) apiKey) as Hc.
    destruct (read_member (apps (after_init w apiKey)) apiKey); [done | done |].
    exfalso. destruct Hc as [Hnone Hproto]. unfold after_init in Hnone.
    pose proof (read_member_cases (apps w) apiKey) as Hc.
    destruct (read_member (apps w) apiKey); cbn [apps] in Hnone.
    - congruence.
    - by destruct Hc.
    - by rewrite lookup_insert_eq in Hnone. }
  split; [|split].
  - intros Hproto. rewrite (post_report_apps request apiKey w Hreq).
    unfold after_init. pose proof (read_member_cases (apps w) apiKey) as Hc.
    destruct (read_member (apps w) apiKey); cbn [apps].
    + by rewrite Hc.
    + by destruct Hc.
    + by rewrite lookup_insert_eq.
  - intros Hnone. rewrite (post_report_apps request apiKey w Hreq).
    destruct Hreq as (_ & _ & _ & Hsecret).
    pose proof (read_member_cases appLookup apiKey) as Hl.
    destruct (read_member appLookup apiKey) as [secret|name|]; [congruence | | done].
    destruct Hl as [_ Hproto].
    unfold after_init. pose proof (read_member_cases (apps w) apiKey) as Hc.
    destruct (read_member (apps w) apiKey); [done | done | by destruct Hc].
  - rewrite (post_report_apps request apiKey _ Hreq).
    apply Hstable. apply (post_report_apps request apiKey w Hreq).
Qed.

(** X17: the beacons of a batch all carry the request's user agent and its
    address ([x-forwarded-for] when truthy, else [request.ip]), and the
    i-th one the i-th reading of the clock; when the route replies, there
    is one beacon per element, and when it raises, fewer. *)
Theorem batch_beacons_context request apiKey items w
    (Hreq : accepted request apiKey)
    (Hbody : req_body request = VArr items) :
  ∃ beacons,
    sent (post_report request w).2 = sent w ++ beacons ∧
    (∀ i data, beacons !! i = Some data →
       ua data = req_user_agent request ∧
       ip data = or_else (req_x_forwarded_for request) (req_ip request) ∧
       http_initiator data = "error" ∧
       rt_tstart data = clock (ticks w + i) ∧ rt_end data = clock (ticks w + i)) ∧
    match (post_report request w).1 with
    | Ret r => r = ReplySuccess (length items) ∧ length beacons = length items
    | Throw _ => (length beacons < length items)%nat
    end.
Proof.
  rewrite (post_report_run request apiKey w Hreq), Hbody.
  destruct (after_init_frame w apiKey) as [Hs Ht].
  destruct (handleReports_effects items (req_user_agent request)
              (or_else (req_x_forwarded_for request) (req_ip request)) 0
              (after_init w apiKey)) as (_ & beacons & Hsent & Hall & Hout).
  rewrite Hs in Hsent. rewrite Ht in Hall.
  exists beacons. unfold mbind at 1 2, M_bind at 1 2.
  destruct (handleReports items _ _ 0 (after_init w apiKey)) as [[m|e] w2];
    cbn [fst snd] in *.
  - split; [done|]. split; [done|]. destruct Hout as [-> ?]. done.
  - done.
Qed.

(** ** String conversion *)

Lemma ToString_cases x :
  if printable x then ∃ s, ToString x = Ret s else ToString x = Throw TypeError.
Proof.
  revert x. fix IH 1. intros x.
  destruct x as [| |b|n|s|items|fields]; try (cbn; eauto; fail).
  - destruct b; cbn; eauto.
  - cbn [printable ToString].
    match goal with
    | |- context [?join items true] =>
        assert (Hjoin : ∀ first,
                  if forallb printable items
                  then ∃ s, join items first = Ret s
                  else join items first = Throw TypeError)
    end.
    { induction items as [|y items IHl]; intros first.
      - cbn. eauto.
      - cbn [forallb].
        specialize (IH y). specialize (IHl false).
        destruct (printable y) eqn:Hy.
        + cbn [andb]. destruct IH as [a Ha].
          assert (Hpiece : match y with VUndefined | VNull => Ret "" | _ => ToString y end
                           = Ret (match y with VUndefined | VNull => "" | _ => a end)).
          { destruct y; try exact Ha; reflexivity. }
          rewrite Hpiece. cbv beta iota. destruct (forallb printable items).
          * destruct IHl as [b Hb]. rewrite Hb. eauto.
          * by rewrite IHl.
        + cbn [andb].
          assert (Hpiece : match y with VUndefined | VNull => Ret "" | _ => ToString y end
                           = Throw TypeError).
          { destruct y; try exact IH; discriminate. }
          by rewrite Hpiece. }
    apply (Hjoin true).
  - cbn. destruct (assoc "toString" fields); eauto.
Qed.

(** X12: a template literal renders a value exactly when the value is
    [printable]: when every object it holds, directly or through arrays,
    has no key [toString] of its own; otherwise the conversion raises a
    [TypeError]. *)
Theorem ToString_printable x :
  (printable x = true ↔ ∃ s, ToString x = Ret s) ∧
  (printable x = false ↔ ToString x = Throw TypeError).
Proof.
  pose proof (ToString_cases x) as H.
  destruct (printable x).
  - destruct H as [s Hs]. split; split; try done; [by exists s | by rewrite Hs].
  - split; split; try done. intros [s Hs]. by rewrite H in Hs.
Qed.

(** X5: a Network Error Logging report with a payload is handled exactly
    when its four fields are printable, and raises otherwise, whatever the
    time, the headers and the world. *)
Theorem nel_returns_iff_printable body nel
    (Hnel : reporting_api body "network-error" nel) :
  (returns body ↔
   printable (prop nel "type") && printable (prop nel "protocol") &&
   printable (prop nel "method") && printable (prop nel "status_code") = true) ∧
  (returns body ∨ raises body).
Proof.
  pose proof (reporting_api_body _ _ _ Hnel) as Hb.
  destruct Hnel as (Hm & Htype & Hpay & Hn). subst nel. type_facts Htype.
  set (ok := printable (prop (prop body "body") "type") &&
             printable (prop (prop body "body") "protocol") &&
             printable (prop (prop body "body") "method") &&
             printable (prop (prop body "body") "status_code")).
  assert (Hwp : ∀ ua0 ip0 w,
            wp (handleReport body ua0 ip0) w (λ _ _, ok = true)
               (λ e _, e = TypeError ∧ ok = false)).
  { intros ua0 ip0 w. subst ok.
    pose proof (ToString_cases (prop (prop body "body") "type")) as Hp1.
    pose proof (ToString_cases (prop (prop body "body") "protocol")) as Hp2.
    pose proof (ToString_cases (prop (prop body "body") "method")) as Hp3.
    pose proof (ToString_cases (prop (prop body "body") "status_code")) as Hp4.
    destruct (printable (prop (prop body "body") "type"));
      destruct (printable (prop (prop body "body") "protocol"));
      destruct (printable (prop (prop body "body") "method"));
      destruct (printable (prop (prop body "body") "status_code"));
      repeat match goal with H : ∃ _, _ |- _ => destruct H end;
      unfold handleReport, INCLUDE_FULL_REPORT; wp_known; done. }
  assert (Hrun : ∀ ua0 ip0 w,
            (ok = true ∧ (handleReport body ua0 ip0 w).1 = Ret tt) ∨
            (ok = false ∧ (handleReport body ua0 ip0 w).1 = Throw TypeError)).
  { intros ua0 ip0 w. specialize (Hwp ua0 ip0 w). unfold wp in Hwp.
    destruct (handleReport body ua0 ip0 w) as [[[]|e] w'].
    - by left.
    - right. by destruct Hwp as [-> ?]. }
  split.
  - split.
    + intros Hret. destruct (Hrun VUndefined VUndefined
                               {| ticks := 0; console := []; sent := []; apps := ∅ |})
        as [[? _]|[_ Hthrow]]; [done|].
      rewrite Hret in Hthrow. discriminate.
    + intros Hok ua0 ip0 w. destruct (Hrun ua0 ip0 w) as [[_ ?]|[? _]]; [done | congruence].
  - destruct ok eqn:Hok.
    + left. intros ua0 ip0 w. destruct (Hrun ua0 ip0 w) as [[_ ?]|[? _]]; [done | congruence].
    + right. intros ua0 ip0 w. destruct (Hrun ua0 ip0 w) as [[? _]|[_ ?]]; [congruence | done].
Qed.

End Relay.

Arguments VUndefined {number}.
Arguments VNull {number}.
Arguments VBool {number} b.
Arguments VNum {number} x.
Arguments VStr {number} s.
Arguments VArr {number} items.
Arguments VObj {number} fields.

(** * Sample runs

    The host is instantiated: numbers are integers, the clock starts at
    1700000000000 ms, [apps.json] holds one key, and the encoder shows the
    title, the date and the message of the record it is given. *)
Module Sample.

Definition number : Type := Z.
Definition Number_toString (x : Z) : string := pretty x.
Definition Number_ToBoolean (x : Z) : bool := negb (x =? 0).
Definition JSON_stringify (x : value Z) : string := "<json>".
Definition clock (n : nat) : Z := 1700000000000 + Z.of_nat n.
Definition appLookup : gmap string (value Z) := {[ "validKey" := VStr "secret" ]}.
Definition JSURL_stringify (records : list (NormalizedError Z)) : string :=
  match records with
  | [r] => err_t Z r +:+ "|" +:+ err_d Z r +:+ "|" +:+ err_m Z r
  | _ => ""
  end.

Definition handleReport : value Z → value Z → value Z → M Z unit :=
  handleReport Z Number_toString Number_ToBoolean JSON_stringify clock JSURL_stringify.
Definition post_report : Request Z → M Z reply :=
  post_report Z Number_toString Number_ToBoolean JSON_stringify clock appLookup
    JSURL_stringify.

Definition w0 : world Z := {| ticks := 0; console := []; sent := []; apps := ∅ |}.
Definition UA : value Z := VStr "Mozilla/5.0".
Definition IP : value Z := VStr "203.0.113.7".

Definition csp_payload : value Z :=
  VObj [("document-uri", VStr "https://site.example/page");
        ("blocked-uri", VStr "https://evil.com/path/x");
        ("violated-directive", VStr "script-src 'self'")].
Definition legacy_csp : value Z := VObj [("csp-report", csp_payload)].
Definition bare_csp : value Z := VObj [("type", VStr "csp")].
Definition crash : value Z :=
  VObj [("type", VStr "crash"); ("url", VStr "https://site.example/");
        ("body", VObj [("reason", VStr "oom")])].
Definition nel_with_csp_marker : value Z :=
  VObj [("type", VStr "network-error"); ("url", VStr "https://site.example/");
        ("body", VObj [("type", VStr "dns.unreachable"); ("protocol", VStr "h2");
                       ("method", VStr "GET"); ("status_code", VNum 0)]);
        ("csp-report", csp_payload)].
Definition new_kind : value Z := VObj [("type", VStr "totally-new-kind")].
Definition xss : value Z :=
  VObj [("xss-report", VObj [("request-url", VStr "site.example/?next=http://a.example")])].

Definition request (body : value Z) (apiKey : string) : Request Z :=
  {| req_body := body; req_user_agent := UA; req_x_forwarded_for := VUndefined;
     req_ip := IP; req_apiKey := Some apiKey |}.

Definition garbled_batch : value Z := VArr [bare_csp; crash].
Definition null_batch : value Z := VArr [VNull; new_kind].
Definition mixed_batch : value Z := VArr [crash; new_kind].
Definition broken_batch : value Z := VArr [crash; bare_csp; new_kind].

(** ** What the spec's samples give *)

Example blocked_uri_with_path :
  handleReport legacy_csp UA IP w0 =
    (Ret tt,
     {| ticks := 1; console := [LogValue Z legacy_csp];
        sent := [{| rt_tstart := 1700000000000; rt_end := 1700000000000;
                    http_initiator := "error"; ua := UA; ip := IP;
                    u := Some (VStr "https://site.example/page");
                    err := Some "Content Security Policy|loyw3v28|script-src: evil.com" |}];
        apps := ∅ |}).
Proof. reflexivity. Qed.

Example unknown_kind_is_handled :
  post_report (request new_kind "validKey") w0 =
    (Ret (ReplySuccess 1),
     (post_report (request new_kind "validKey") w0).2) ∧
  sent Z (post_report (request new_kind "validKey") w0).2 =
    [{| rt_tstart := 1700000000000; rt_end := 1700000000000;
        http_initiator := "error"; ua := UA; ip := IP; u := None; err := None |}].
Proof. split; reflexivity. Qed.

Example unknown_key_is_refused :
  post_report (request new_kind "nonexistentKey") w0 =
    (Ret (ReplyError "Unknown API key"), w0).
Proof. reflexivity. Qed.

Example missing_body_is_refused :
  post_report (request VUndefined "validKey") w0 =
    (Ret (ReplyError "No Request body"), w0).
Proof. reflexivity. Qed.

(** ** Witnesses *)


Lemma returns_crash :
  returns Z Number_toString Number_ToBoolean JSON_stringify clock JSURL_stringify crash.
Proof. intros ua ip w. reflexivity. Defined.

Lemma returns_new_kind :
  returns Z Number_toString Number_ToBoolean JSON_stringify clock JSURL_stringify new_kind.
Proof. intros ua ip w. reflexivity. Defined.

Lemma accepted_validKey body :
  ToBoolean Z Number_ToBoolean body = true →
  accepted Z Number_ToBoolean appLookup (request body "validKey") "validKey".
Proof. intros H. split; [exact H|]. split; [reflexivity|]. split; [discriminate | reflexivity]. Defined.



(** C2 on a batch whose second element is a CSP report without payload:
    the crash report before it is sent, the unknown one after it is not. *)
Lemma C2_witness :
  raises Z Number_toString Number_ToBoolean JSON_stringify clock JSURL_stringify bare_csp ∧
  ∃ w' beacons,
    post_report (request broken_batch "validKey") w0 = (Throw TypeError, w') ∧
    sent Z w' = sent Z w0 ++ beacons ∧
    Forall2 (beacon_of Z Number_ToBoolean JSURL_stringify) [crash] beacons.
Proof.
  apply (C2_malformed_report_aborts Z Number_toString Number_ToBoolean JSON_stringify
           clock appLookup JSURL_stringify (request broken_batch "validKey")
           "validKey" w0 [crash] bare_csp [new_kind]).
  - by apply accepted_validKey.
  - reflexivity.
  - constructor; [exact returns_crash | constructor].
  - split; [left; reflexivity | left; reflexivity].
Defined.

(** C2 fails as stated: the batch ends in an uncaught [TypeError], and the
    well-formed crash report after the malformed one is never processed. *)
Lemma C2_counterexample :
  (post_report (request garbled_batch "validKey") w0).1 = Throw TypeError ∧
  sent Z (post_report (request garbled_batch "validKey") w0).2 = [].
Proof. split; reflexivity. Qed.

(** C3 on a report that has both a [type] and a [csp-report] marker. *)
Lemma C3_witness :
  (∀ w', handleReport nel_with_csp_marker UA IP w0 = (Ret tt, w') →
     ∃ data, sent Z w' = sent Z w0 ++ [data] ∧
       ∃ m, err Z data = Some (JSURL_stringify
              [record Z "Content Security Policy" (clock 0) m (f_undefined Z)])) ∧
  classify Z Number_ToBoolean nel_with_csp_marker = CSP.
Proof.
  pose proof (C3_classification_order Z Number_toString Number_ToBoolean JSON_stringify
                clock JSURL_stringify nel_with_csp_marker UA IP w0 eq_refl)
    as (Hret & _ & Hmarker & _).
  split; [exact Hret | exact (Hmarker eq_refl)].
Defined.

(** C3 fails as stated: the [type] names Network Error Logging, yet the
    report is normalized as a CSP report. *)
Lemma C3_counterexample :
  kind_of_type Z (prop Z nel_with_csp_marker "type") = Some NEL ∧
  (handleReport nel_with_csp_marker UA IP w0).1 = Ret tt ∧
  err Z <$> sent Z (handleReport nel_with_csp_marker UA IP w0).2 =
    [Some "Content Security Policy|loyw3v28|script-src: evil.com"].
Proof. repeat split; reflexivity. Qed.

(** C5 on a batch of a crash report and an unknown one. *)
Lemma C5_witness :
  ∃ w' beacons,
    post_report (request mixed_batch "validKey") w0 = (Ret (ReplySuccess 2), w') ∧
    sent Z w' = sent Z w0 ++ beacons ∧
    Forall2 (beacon_of Z Number_ToBoolean JSURL_stringify) [crash; new_kind] beacons.
Proof.
  apply (proj1 (C5_batch_count Z Number_toString Number_ToBoolean JSON_stringify
                  clock appLookup JSURL_stringify (request mixed_batch "validKey")
                  "validKey" w0 (accepted_validKey mixed_batch eq_refl))
               [crash; new_kind] eq_refl).
  constructor; [exact returns_crash | constructor; [exact returns_new_kind | constructor]].
Defined.

(** C5 fails as stated: three elements, one beacon, no handled count. *)
Lemma C5_counterexample :
  (post_report (request broken_batch "validKey") w0).1 = Throw TypeError ∧
  length (sent Z (post_report (request broken_batch "validKey") w0).2) = 1%nat.
Proof. split; reflexivity. Qed.

(** C6 on the unknown sample. *)
Lemma C6_witness :
  (∀ w', handleReport new_kind UA IP w0 = (Ret tt, w') →
     ∃ data, sent Z w' = sent Z w0 ++ [data] ∧
       rt_tstart Z data = clock 0 ∧ rt_end Z data = clock 0 ∧
       http_initiator Z data = "error" ∧ ua Z data = UA ∧ ip Z data = IP) ∧
  (classify Z Number_ToBoolean new_kind = Unknown →
     ∃ w', handleReport new_kind UA IP w0 = (Ret tt, w') ∧
       sent Z w' = sent Z w0 ++
         [{| rt_tstart := clock 0; rt_end := clock 0; http_initiator := "error";
             ua := UA; ip := IP; u := None; err := None |}] ∧
       ∀ n, handleReports Z Number_toString Number_ToBoolean JSON_stringify clock
              JSURL_stringify [new_kind] UA IP n w0 = (Ret (S n), w')).
Proof.
  exact (C6_beacon_context Z Number_toString Number_ToBoolean JSON_stringify clock
           JSURL_stringify new_kind UA IP w0 eq_refl).
Defined.

(** C6 fails as stated: [null] matches no kind, yet [handleReport] raises
    on it, and a batch that holds it gets no beacon and no count. *)
Lemma C6_counterexample :
  classify Z Number_ToBoolean VNull = Unknown ∧
  (handleReport VNull UA IP w0).1 = Throw TypeError ∧
  (post_report (request null_batch "validKey") w0).1 = Throw TypeError ∧
  sent Z (post_report (request null_batch "validKey") w0).2 = [].
Proof. repeat split; reflexivity. Qed.

(** C7 fails on the code: [constructor] is not a key of [apps.json], yet
    the request passes the credential check, a beacon is sent and the
    reply is a success with [handled = 1]. *)
Lemma C7_inherited_key_accepted :
  appLookup !! "constructor" = None ∧
  (post_report (request new_kind "constructor") w0).1 = Ret (ReplySuccess 1) ∧
  length (sent Z (post_report (request new_kind "constructor") w0).2) = 1%nat.
Proof. repeat split; reflexivity. Qed.

(** C8 on the crash sample. *)
Lemma C8_witness :
  ∃ data rec,
    sent Z (handleReport crash UA IP w0).2 = sent Z w0 ++ [data] ∧
    err Z data = Some (JSURL_stringify [rec]) ∧
    err_v Z rec = 0 ∧
    err_t Z rec = "Crash" ∧ err_t Z rec ∈ titles ∧
    err_d Z rec = toString36 (clock 0) ∧
    parse36 (err_d Z rec) = Some (clock 0).
Proof.
  apply (C8_error_record Z Number_toString Number_ToBoolean JSON_stringify clock
           JSURL_stringify crash UA IP w0 (handleReport crash UA IP w0).2).
  - reflexivity.
  - discriminate.
Defined.

(** C9 on the crash sample. *)
Lemma C9_witness :
  INCLUDE_FULL_REPORT = false ∧
  ∃ data, sent Z (handleReport crash UA IP w0).2 = sent Z w0 ++ [data] ∧
    (err Z data = None ∨
     ∃ rec, err Z data = Some (JSURL_stringify [rec]) ∧
            (err_f Z rec = f_undefined Z ∨ err_f Z rec = f_absent Z)).
Proof.
  apply (C9_no_detail Z Number_toString Number_ToBoolean JSON_stringify clock
           JSURL_stringify crash UA IP w0 (handleReport crash UA IP w0).2).
  reflexivity.
Defined.

(** C10 on an XSS report whose URL holds [http://] inside. *)
Lemma C10_witness :
  ∃ data rec s1 s2,
    handleReport xss UA IP w0 =
      (Ret tt, {| ticks := 1; console := [LogValue Z xss];
                  sent := [data]; apps := ∅ |}) ∧
    err Z data = Some (JSURL_stringify [rec]) ∧
    err_t Z rec = "XSS Report" ∧
    removed_first "http://" "site.example/?next=http://a.example" s1 ∧
    removed_first "https://" s1 s2 ∧
    (¬ occurs "http://" "site.example/?next=http://a.example" →
     ¬ occurs "https://" "site.example/?next=http://a.example" →
     s2 = "site.example/?next=http://a.example") ∧
    err_m Z rec = s2.
Proof.
  apply (C10_scheme_stripping Z Number_toString Number_ToBoolean JSON_stringify clock
           JSURL_stringify xss "site.example/?next=http://a.example" UA IP w0).
  left. split; reflexivity.
Defined.

(** A scheme inside the string is removed as well; a string with another
    scheme stays. *)
Example scheme_inside_is_removed :
  replace (replace "site.example/?next=http://a.example" "http://" "") "https://" ""
  = "site.example/?next=a.example".
Proof. reflexivity. Qed.

Example other_scheme_is_kept :
  replace (replace "data:text/html,x" "http://" "") "https://" "" = "data:text/html,x".
Proof. reflexivity. Qed.

Example blocked_uri_without_path :
  let s := replace (replace "https://evil.com" "http://" "") "https://" "" in
  (if negb (indexOf s "/" =? -1) then substring s 0 (indexOf s "/") else s) = "evil.com".
Proof. reflexivity. Qed.

(** ** More samples *)

Definition nel : value Z :=
  VObj [("type", VStr "network-error"); ("url", VStr "https://site.example/");
        ("body", VObj [("type", VStr "dns.unreachable"); ("protocol", VStr "h2");
                       ("method", VStr "GET")])].
Definition intervention : value Z :=
  VObj [("type", VStr "intervention"); ("url", VStr "https://site.example/");
        ("body", VObj [("id", VStr "audio-output")])].
Definition expect_ct : value Z :=
  VObj [("expect-ct-report", VObj [("hostname", VStr "site.example")])].
Definition crash_without_body : value Z := VObj [("type", VStr "crash")].

(** X2 on the crash sample. *)
Lemma beacon_url_source_witness :
  ∃ data, sent Z (handleReport crash UA IP w0).2 = sent Z w0 ++ [data] ∧
          u Z data = Some (VStr "https://site.example/").
Proof.
  apply (beacon_url_source Z Number_toString Number_ToBoolean JSON_stringify clock
           JSURL_stringify crash UA IP w0 (handleReport crash UA IP w0).2).
  reflexivity.
Defined.

(** X3 on the unknown sample. *)
Lemma diagnostics_for_unknown_only_witness :
  console Z (handleReport new_kind UA IP w0).2 =
    console Z w0 ++ [LogValue Z new_kind; LogText Z "Unknown Request"; LogText Z "<json>"] ∧
  (diagnostics Z Number_ToBoolean JSON_stringify new_kind = [] ↔
   classify Z Number_ToBoolean new_kind ≠ Unknown).
Proof.
  apply (diagnostics_for_unknown_only Z Number_toString Number_ToBoolean JSON_stringify
           clock JSURL_stringify new_kind UA IP w0 (handleReport new_kind UA IP w0).2).
  reflexivity.
Defined.

(** X4: the payload has no [status_code], which shows as [undefined]. *)
Lemma nel_message_witness :
  ∃ data rec,
    handleReport nel UA IP w0 =
      (Ret tt, {| ticks := 1; console := [LogValue Z nel];
                  sent := [data]; apps := ∅ |}) ∧
    u Z data = Some (VStr "https://site.example/") ∧
    err Z data = Some (JSURL_stringify [rec]) ∧
    err_t Z rec = "Network Error Logging" ∧
    err_m Z rec = "dns.unreachable h2 GET undefined" ∧
    err_f Z rec = f_undefined Z.
Proof.
  apply (nel_message Z Number_toString Number_ToBoolean JSON_stringify clock
           JSURL_stringify nel (prop Z nel "body")
           "dns.unreachable" "h2" "GET" "undefined" UA IP w0).
  - repeat split.
  - reflexivity.
  - reflexivity.
  - reflexivity.
  - reflexivity.
Defined.

(** X7 on an Intervention report. *)
Lemma single_field_message_witness :
  ∃ data rec,
    handleReport intervention UA IP w0 =
      (Ret tt, {| ticks := 1; console := [LogValue Z intervention];
                  sent := [data]; apps := ∅ |}) ∧
    u Z data = Some (VStr "https://site.example/") ∧
    err Z data = Some (JSURL_stringify [rec]) ∧
    err_t Z rec = "Intervention" ∧
    err_m Z rec = "audio-output" ∧
    err_f Z rec = f_undefined Z.
Proof.
  apply (single_field_message Z Number_toString Number_ToBoolean JSON_stringify clock
           JSURL_stringify intervention "intervention" "id" Intervention
           (prop Z intervention "body") "audio-output" UA IP w0).
  - unfold single_field. constructor.
  - repeat split.
  - reflexivity.
Defined.

(** X8 on an Expect-CT report. *)
Lemma expect_ct_message_witness :
  ∃ data rec,
    handleReport expect_ct UA IP w0 =
      (Ret tt, {| ticks := 1; console := [LogValue Z expect_ct];
                  sent := [data]; apps := ∅ |}) ∧
    u Z data = None ∧
    err Z data = Some (JSURL_stringify [rec]) ∧
    err_t Z rec = "Expect-CT" ∧
    err_m Z rec = "site.example" ∧
    err_f Z rec = f_absent Z.
Proof.
  apply (expect_ct_message Z Number_toString Number_ToBoolean JSON_stringify clock
           JSURL_stringify expect_ct "site.example" UA IP w0); reflexivity.
Defined.

(** X9 on a crash report without [body]. *)
Lemma report_without_payload_raises_witness :
  raises Z Number_toString Number_ToBoolean JSON_stringify clock JSURL_stringify
    crash_without_body.
Proof.
  apply (report_without_payload_raises Z Number_toString Number_ToBoolean JSON_stringify
           clock JSURL_stringify crash_without_body).
  right. split; [reflexivity|]. split; [|reflexivity].
  exists Crash. split; [reflexivity | discriminate].
Defined.

(** X10 on the legacy CSP sample. *)
Lemma csp_message_tokens_witness :
  ∃ data rec dir host,
    (handleReport legacy_csp UA IP w0).1 = Ret tt ∧
    sent Z (handleReport legacy_csp UA IP w0).2 = sent Z w0 ++ [data] ∧
    err Z data = Some (JSURL_stringify [rec]) ∧
    err_m Z rec = dir +:+ ": " +:+ host ∧
    ¬ occurs " " dir ∧ (∃ rest, "script-src 'self'" = dir +:+ rest) ∧
    ¬ occurs "/" host.
Proof.
  apply (csp_message_tokens Z Number_toString Number_ToBoolean JSON_stringify clock
           JSURL_stringify legacy_csp csp_payload "https://evil.com/path/x"
           "script-src 'self'" UA IP w0).
  split; [right; reflexivity | repeat split].
Defined.

(** X11 on the crash sample. *)
Lemma date_token_shape_witness :
  ∃ data rec digits,
    sent Z (handleReport crash UA IP w0).2 = sent Z w0 ++ [data] ∧
    err Z data = Some (JSURL_stringify [rec]) ∧
    err_d Z rec = (if clock 0 <? 0 then String "-" digits else digits) ∧
    digits ≠ "" ∧ all_units digit_unit digits = true ∧
    ∀ t, toString36 t = err_d Z rec → t = clock 0.
Proof.
  apply (date_token_shape Z Number_toString Number_ToBoolean JSON_stringify clock
           JSURL_stringify crash UA IP w0 (handleReport crash UA IP w0).2).
  - reflexivity.
  - discriminate.
Defined.

(** X16 on a first request with the sample key. *)
Lemma session_ready_witness :
  ("validKey" ∉ Object_prototype →
     is_Some ((apps Z (post_report (request new_kind "validKey") w0).2) !! "validKey")) ∧
  (appLookup !! "validKey" = None →
     apps Z (post_report (request new_kind "validKey") w0).2 = apps Z w0) ∧
  apps Z (post_report (request new_kind "validKey")
            (post_report (request new_kind "validKey") w0).2).2 =
    apps Z (post_report (request new_kind "validKey") w0).2.
Proof.
  apply (session_ready Z Number_toString Number_ToBoolean JSON_stringify clock appLookup
           JSURL_stringify (request new_kind "validKey") "validKey" w0).
  by apply accepted_validKey.
Defined.

(** X17 on a batch whose second element raises. *)
Lemma batch_beacons_context_witness :
  ∃ beacons,
    sent Z (post_report (request broken_batch "validKey") w0).2 = sent Z w0 ++ beacons ∧
    (∀ i data, beacons !! i = Some data →
       ua Z data = UA ∧
       ip Z data = or_else Z Number_ToBoolean VUndefined IP ∧
       http_initiator Z data = "error" ∧
       rt_tstart Z data = clock (0 + i) ∧ rt_end Z data = clock (0 + i)) ∧
    match (post_report (request broken_batch "validKey") w0).1 with
    | Ret r => r = ReplySuccess 3 ∧ length beacons = 3%nat
    | Throw _ => (length beacons < 3)%nat
    end.
Proof.
  apply (batch_beacons_context Z Number_toString Number_ToBoolean JSON_stringify clock
           appLookup JSURL_stringify (request broken_batch "validKey") "validKey"
           [crash; bare_csp; new_kind] w0).
  - by apply accepted_validKey.
  - reflexivity.
Defined.

(** X5 on the sample, whose fields are strings or absent. *)
Lemma nel_returns_iff_printable_witness :
  (returns Z Number_toString Number_ToBoolean JSON_stringify clock JSURL_stringify nel ↔
   printable Z (prop Z (prop Z nel "body") "type") &&
   printable Z (prop Z (prop Z nel "body") "protocol") &&
   printable Z (prop Z (prop Z nel "body") "method") &&
   printable Z (prop Z (prop Z nel "body") "status_code") = true) ∧
  (returns Z Number_toString Number_ToBoolean JSON_stringify clock JSURL_stringify nel ∨
   raises Z Number_toString Number_ToBoolean JSON_stringify clock JSURL_stringify nel).
Proof.
  apply (nel_returns_iff_printable Z Number_toString Number_ToBoolean JSON_stringify
           clock JSURL_stringify nel (prop Z nel "body")).
  repeat split.
Defined.

(** A session of the sample world, and a refused request. *)
Example session_is_made :
  (apps Z (post_report (request new_kind "validKey") w0).2) !! "validKey" =
    Some (session Z "validKey" (VStr "secret")).
Proof. reflexivity. Qed.

Example empty_batch_is_accepted :
  (post_report (request (VArr []) "validKey") w0).1 = Ret (ReplySuccess 0) ∧
  sent Z (post_report (request (VArr []) "validKey") w0).2 = [].
Proof. split; reflexivity. Qed.

End Sample.
